(** * The data collector of the k8s cluster receiver

    A shallow embedding of
    [receiver/k8sclusterreceiver/internal/collection/collector.go]:
    the [DataCollector] facade over a metrics store and a metadata store,
    its type-switch dispatch over Kubernetes objects, and the conversion of
    OpenCensus requests to [pmetric.Metrics].

    Go values are modelled as follows.
    - [interface{}] is a tagged union [Obj] over the dynamic type.
    - A Go map that may be nil is an [option] of a [gmap].
    - The methods of [*DataCollector] run in a small state monad [M] whose
      state is everything reachable from the receiver pointer, and whose
      outcome is either a normal return or a Go panic. *)

From Stdlib Require Import ZArith.
From stdpp Require Import gmap strings list fin_maps.

Local Open Scope string_scope.
Local Open Scope list_scope.

(** ** [pmetric.Metrics]

    The part of the pdata model the collector looks at: resource metrics
    hold scope metrics, which hold metrics, which hold timestamped data
    points. *)

Record DataPoint := mkDataPoint {
  dpTimestamp : N;
  dpValue : Z
}.

Record Metric := mkMetric {
  metricName : string;
  metricDataPoints : list DataPoint
}.

Record ScopeMetrics := mkScopeMetrics {
  smMetrics : list Metric
}.

Record ResourceMetrics := mkResourceMetrics {
  rmResource : list (string * string);
  rmScopeMetrics : list ScopeMetrics
}.

(** [pmetric.Metrics] is its slice of resource metrics;
    [pmetric.NewMetrics()] is the empty slice. *)
Definition Metrics := list ResourceMetrics.

Definition NewMetrics : Metrics := [].

Definition sum_of {A} (f : A -> nat) (l : list A) : nat :=
  foldr (fun x acc => f x + acc) 0 l.

Definition metricPoints (m : Metric) : nat := length (metricDataPoints m).
Definition scopePoints (sm : ScopeMetrics) : nat := sum_of metricPoints (smMetrics sm).
Definition resourcePoints (rm : ResourceMetrics) : nat := sum_of scopePoints (rmScopeMetrics rm).

(** [md.DataPointCount()]: the data points of all metrics of all scopes of
    all resources. *)
Definition DataPointCount (md : Metrics) : nat := sum_of resourcePoints md.

(** ** OpenCensus requests and [ocsToMetrics] *)

Record OCMetric := mkOCMetric {
  ocName : string;
  ocPoints : list Z
}.

(** [agentmetricspb.ExportMetricsServiceRequest], the three fields that
    [ocsToMetrics] reads. *)
Record ExportMetricsServiceRequest := mkRequest {
  ocNode : option string;
  ocResource : list (string * string);
  ocMetrics : list OCMetric
}.

(** ** Kubernetes objects behind [interface{}] *)

Definition UID := string.

Record ObjectMeta := mkObjectMeta {
  metaUID : UID;
  metaNamespace : string;
  metaName : string
}.

(** A typed API object: its object metadata and the rest of its fields,
    which only the per-kind derivation functions read. *)
Record Resource := mkResource {
  objectMeta : ObjectMeta;
  fields : list (string * string)
}.

(** The dynamic type of the value held by an [interface{}].  The first
    fourteen constructors are the pointer types named in the type switches;
    [ORuntime] is any other type that implements [runtime.Object] (with its
    object metadata, if it has any); [OForeign] is a value of a type that
    does not implement [runtime.Object]; [ONil] is the nil interface. *)
Inductive Obj :=
| OPod (o : Resource)
| ONode (o : Resource)
| ONamespace (o : Resource)
| OReplicationController (o : Resource)
| OResourceQuota (o : Resource)
| ODeployment (o : Resource)
| OReplicaSet (o : Resource)
| ODaemonSet (o : Resource)
| OStatefulSet (o : Resource)
| OJob (o : Resource)
| OCronJob (o : Resource)
| OCronJobBeta (o : Resource)
| OHorizontalPodAutoscaler (o : Resource)
| OClusterResourceQuota (o : Resource)
| ORuntime (ty : string) (meta : option ObjectMeta)
| OForeign (ty : string)
| ONil.

(** [reflect.TypeOf(obj)]: nil for the nil interface. *)
Definition TypeOf (obj : Obj) : option string :=
  match obj with
  | OPod _ => Some "*v1.Pod"
  | ONode _ => Some "*v1.Node"
  | ONamespace _ => Some "*v1.Namespace"
  | OReplicationController _ => Some "*v1.ReplicationController"
  | OResourceQuota _ => Some "*v1.ResourceQuota"
  | ODeployment _ => Some "*v1.Deployment"
  | OReplicaSet _ => Some "*v1.ReplicaSet"
  | ODaemonSet _ => Some "*v1.DaemonSet"
  | OStatefulSet _ => Some "*v1.StatefulSet"
  | OJob _ => Some "*v1.Job"
  | OCronJob _ => Some "*v1.CronJob"
  | OCronJobBeta _ => Some "*v1beta1.CronJob"
  | OHorizontalPodAutoscaler _ => Some "*v2beta2.HorizontalPodAutoscaler"
  | OClusterResourceQuota _ => Some "*v1.ClusterResourceQuota"
  | ORuntime ty _ => Some ty
  | OForeign ty => Some ty
  | ONil => None
  end.

(** Whether the type assertion [obj.(runtime.Object)] holds.  It fails on
    the nil interface and on a dynamic type without the interface's
    methods. *)
Definition implementsRuntimeObject (obj : Obj) : bool :=
  match obj with
  | OForeign _ | ONil => false
  | _ => true
  end.

(** The object metadata reachable from a [runtime.Object]. *)
Definition objectMetaOf (obj : Obj) : option ObjectMeta :=
  match obj with
  | OPod o | ONode o | ONamespace o | OReplicationController o
  | OResourceQuota o | ODeployment o | OReplicaSet o | ODaemonSet o
  | OStatefulSet o | OJob o | OCronJob o | OCronJobBeta o
  | OHorizontalPodAutoscaler o | OClusterResourceQuota o => Some (objectMeta o)
  | ORuntime _ meta => meta
  | OForeign _ | ONil => None
  end.

(** ** Metadata *)

Definition ResourceID := string.

Record KubernetesMetadata := mkKubernetesMetadata {
  resourceIDKey : string;
  resourceID : ResourceID;
  metadata : gmap string string
}.

(** [map[metadata.ResourceID]*KubernetesMetadata]: [None] is the nil map. *)
Definition MetadataMap := option (gmap ResourceID KubernetesMetadata).

(** ** Logging *)

Inductive error :=
| IdentityResolutionError.

Inductive Field :=
| zapString (key val : string)
| zapError (err : error).

Record LogEntry := mkLogEntry {
  logLevel : string;
  logMsg : string;
  logFields : list Field
}.

(** ** The two stores

    [metricsStore] and [metadataStore] are declared in sibling files of the
    package; [NewDataCollector] shows their fields. *)

Record MetricsStore := mkMetricsStore {
  metricsCache : gmap UID Metrics
}.

Definition GroupVersionKind := (string * string * string)%type.

(** [cache.Store], the watch cache of one kind: objects by key. *)
Definition Store := gmap string Resource.

(** [stores] is nil in the zero value [&metadataStore{}]. *)
Record MetadataStore := mkMetadataStore {
  stores : option (gmap GroupVersionKind Store)
}.

Inductive errorOr (A : Type) :=
| Ok (a : A)
| Err (e : error).
Arguments Ok {A} a.
Arguments Err {A} e.

(** Modelled from the spec: identity resolution of the metrics store,
    whose code is outside this file.  An object resolves to the UID of its
    object metadata, and to [IdentityResolutionError] when it carries
    none. *)
Definition resolveIdentity (obj : Obj) : errorOr UID :=
  match objectMetaOf obj with
  | Some m => Ok (metaUID m)
  | None => Err IdentityResolutionError
  end.

(** Modelled from the spec: [metricsStore.update].  The identity must
    resolve; a non-empty record set replaces the entry of the identity
    wholesale and an empty one is a no-op. *)
Definition metricsStore_update (obj : Obj) (md : Metrics) (ms : MetricsStore)
  : option error * MetricsStore :=
  match resolveIdentity obj with
  | Err e => (Some e, ms)
  | Ok key =>
      if Nat.eqb (DataPointCount md) 0 then (None, ms)
      else (None, mkMetricsStore (<[key := md]> (metricsCache ms)))
  end.

(** Modelled from the spec: [metricsStore.remove].  The identity must
    resolve; the entry is deleted if present and deleting an absent entry is
    a no-op. *)
Definition metricsStore_remove (obj : Obj) (ms : MetricsStore)
  : option error * MetricsStore :=
  match resolveIdentity obj with
  | Err e => (Some e, ms)
  | Ok key => (None, mkMetricsStore (delete key (metricsCache ms)))
  end.

Definition stampPoint (t : N) (p : DataPoint) : DataPoint :=
  mkDataPoint t (dpValue p).
Definition stampMetric (t : N) (m : Metric) : Metric :=
  mkMetric (metricName m) (stampPoint t <$> metricDataPoints m).
Definition stampScope (t : N) (sm : ScopeMetrics) : ScopeMetrics :=
  mkScopeMetrics (stampMetric t <$> smMetrics sm).
Definition applyCurrentTime (t : N) (rm : ResourceMetrics) : ResourceMetrics :=
  mkResourceMetrics (rmResource rm) (stampScope t <$> rmScopeMetrics rm).

(** Modelled from the spec: [metricsStore.getMetricData], the snapshot.
    It consolidates the records of all stored entries into one collection
    and stamps them with the supplied collection timestamp.  The order of
    the entries is that of [map_to_list]; the spec leaves it open. *)
Definition metricsStore_getMetricData (currentTime : N) (ms : MetricsStore) : Metrics :=
  mjoin ((fun kv => applyCurrentTime currentTime <$> kv.2) <$> map_to_list (metricsCache ms)).

(** Modelled from the spec: [metadataStore.setupStore], which installs
    the watch cache of a kind; registering a kind again replaces the
    reference. *)
Definition metadataStore_setupStore (gvk : GroupVersionKind) (store : Store)
    (ms : MetadataStore) : MetadataStore :=
  mkMetadataStore (Some (<[gvk := store]> (default ∅ (stores ms)))).

(** Modelled from the spec: the lookup of the metadata store.  It gives
    the previously observed object, or nothing when the object is absent or
    no cache is registered for the kind. *)
Definition metadataStore_lookup (gvk : GroupVersionKind) (key : string)
    (ms : MetadataStore) : option Resource :=
  st ← stores ms ≫= (.!! gvk); st !! key.

(** ** [DataCollector]

    The state reachable from a [*DataCollector].  [logger] holds the
    entries written so far, oldest first. *)
Record DataCollector := mkDataCollector {
  logger : list LogEntry;
  metricsStore : MetricsStore;
  metadataStore : MetadataStore;
  nodeConditionsToReport : list string;
  allocatableTypesToReport : list string
}.

(** The functions a method may call outside this file. *)
Inductive Callee :=
| FnGetMetricsForPod | FnGetMetricsForNode | FnGetMetricsForNamespace
| FnGetMetricsForReplicationController | FnGetMetricsForResourceQuota
| FnGetMetricsForDeployment | FnGetMetricsForReplicaSet
| FnGetMetricsForDaemonSet | FnGetMetricsForStatefulSet | FnGetMetricsForJob
| FnGetMetricsForCronJob | FnGetMetricsForCronJobBeta | FnGetMetricsForHPA
| FnGetMetricsForClusterResourceQuota
| FnGetMetadataForPod | FnGetMetadataForNode
| FnGetMetadataForReplicationController | FnGetMetadataForDeployment
| FnGetMetadataForReplicaSet | FnGetMetadataForDaemonSet
| FnGetMetadataForStatefulSet | FnGetMetadataForJob | FnGetMetadataForCronJob
| FnGetMetadataForCronJobBeta | FnGetMetadataForHPA
| FnStoreUpdate | FnStoreRemove | FnStoreGetMetricData | FnSetupStore.

Global Instance Callee_eq_dec : EqDecision Callee.
Proof. solve_decision. Defined.

(** A run of a method: the collector's state and the calls made so far,
    oldest first. *)
Record World := mkWorld {
  dc : DataCollector;
  calls : list Callee
}.

Inductive Outcome (A : Type) :=
| Returned (a : A) (w : World)
| Panicked (reason : string).
Arguments Returned {A} a w.
Arguments Panicked {A} reason.

Definition M (A : Type) : Type := World -> Outcome A.

Global Instance M_ret : MRet M := fun A a w => Returned a w.
Global Instance M_bind : MBind M := fun A B f m w =>
  match m w with
  | Returned a w' => f a w'
  | Panicked r => Panicked r
  end.

Definition panic {A} (reason : string) : M A := fun _ => Panicked reason.

Definition getCollector : M DataCollector := fun w => Returned (dc w) w.

Definition invoke (c : Callee) : M unit :=
  fun w => Returned () (mkWorld (dc w) (calls w ++ [c])%list).

Definition withMetricsStore (ms : MetricsStore) (d : DataCollector) : DataCollector :=
  mkDataCollector (logger d) ms (metadataStore d)
                  (nodeConditionsToReport d) (allocatableTypesToReport d).

Definition withMetadataStore (ms : MetadataStore) (d : DataCollector) : DataCollector :=
  mkDataCollector (logger d) (metricsStore d) ms
                  (nodeConditionsToReport d) (allocatableTypesToReport d).

Definition setMetricsStore (ms : MetricsStore) : M unit :=
  fun w => Returned () (mkWorld (withMetricsStore ms (dc w)) (calls w)).

Definition setMetadataStore (ms : MetadataStore) : M unit :=
  fun w => Returned () (mkWorld (withMetadataStore ms (dc w)) (calls w)).

(** The collector after the logger has written [es]. *)
Definition addLogs (es : list LogEntry) (d : DataCollector) : DataCollector :=
  mkDataCollector (logger d ++ es)%list (metricsStore d) (metadataStore d)
                  (nodeConditionsToReport d) (allocatableTypesToReport d).

(** Entries reach the logger in order. *)
Definition emit (es : list LogEntry) : M unit :=
  fun w => Returned () (mkWorld (addLogs es (dc w)) (calls w)).

(** [dc.logger.Error(msg, fields...)] *)
Definition loggerError (msg : string) (fs : list Field) : M unit :=
  emit [mkLogEntry "error" msg fs].

(** [obj.(runtime.Object)], the single-value form, which panics when the
    assertion fails. *)
Definition assertRuntimeObject (obj : Obj) : M Obj :=
  if implementsRuntimeObject obj then mret obj
  else panic "interface conversion: interface {} is not runtime.Object".

(** [reflect.TypeOf(obj).String()], a method call on a nil [reflect.Type]
    for the nil interface. *)
Definition typeString (obj : Obj) : M string :=
  match TypeOf obj with
  | Some ty => mret ty
  | None => panic "invalid memory address or nil pointer dereference"
  end.

(** ** The collaborators

    The per-kind derivation functions and the OpenCensus translator are
    defined elsewhere; the collector only calls them.  A function that is
    handed the logger returns the entries it writes. *)
Class Collaborators := {
  getMetricsForPod : Resource -> list ExportMetricsServiceRequest * list LogEntry;
  getMetricsForNode :
    Resource -> list string -> list string -> list ExportMetricsServiceRequest * list LogEntry;
  getMetricsForNamespace : Resource -> list ExportMetricsServiceRequest;
  getMetricsForReplicationController : Resource -> list ExportMetricsServiceRequest;
  getMetricsForResourceQuota : Resource -> list ExportMetricsServiceRequest;
  getMetricsForDeployment : Resource -> list ExportMetricsServiceRequest;
  getMetricsForReplicaSet : Resource -> list ExportMetricsServiceRequest;
  getMetricsForDaemonSet : Resource -> list ExportMetricsServiceRequest;
  getMetricsForStatefulSet : Resource -> list ExportMetricsServiceRequest;
  getMetricsForJob : Resource -> list ExportMetricsServiceRequest;
  getMetricsForCronJob : Resource -> list ExportMetricsServiceRequest;
  getMetricsForCronJobBeta : Resource -> list ExportMetricsServiceRequest;
  getMetricsForHPA : Resource -> list ExportMetricsServiceRequest;
  getMetricsForClusterResourceQuota : Resource -> list ExportMetricsServiceRequest;
  getMetadataForPod : Resource -> MetadataStore -> MetadataMap * list LogEntry;
  getMetadataForNode : Resource -> MetadataMap;
  getMetadataForReplicationController : Resource -> MetadataMap;
  getMetadataForDeployment : Resource -> MetadataMap;
  getMetadataForReplicaSet : Resource -> MetadataMap;
  getMetadataForDaemonSet : Resource -> MetadataMap;
  getMetadataForStatefulSet : Resource -> MetadataMap;
  getMetadataForJob : Resource -> MetadataMap;
  getMetadataForCronJob : Resource -> MetadataMap;
  getMetadataForCronJobBeta : Resource -> MetadataMap;
  getMetadataForHPA : Resource -> MetadataMap;
  OCToMetrics : option string -> list (string * string) -> list OCMetric -> Metrics
}.

(** Resource label keys and kinds, as the file declares them. *)
Definition k8sType := "k8s".
Definition containerType := "container".
Definition k8sKeyNamespaceUID := "k8s.namespace.uid".
Definition k8sKeyReplicationControllerUID := "k8s.replicationcontroller.uid".
Definition k8sKeyHPAUID := "k8s.hpa.uid".
Definition k8sKeyResourceQuotaUID := "k8s.resourcequota.uid".
Definition k8sKeyClusterResourceQuotaUID := "openshift.clusterquota.uid".
Definition k8sKeyReplicationControllerName := "k8s.replicationcontroller.name".
Definition k8sKeyHPAName := "k8s.hpa.name".
Definition k8sKeyResourceQuotaName := "k8s.resourcequota.name".
Definition k8sKeyClusterResourceQuotaName := "openshift.clusterquota.name".
Definition k8sKindCronJob := "CronJob".
Definition k8sKindDaemonSet := "DaemonSet".
Definition k8sKindDeployment := "Deployment".
Definition k8sKindJob := "Job".
Definition k8sKindReplicationController := "ReplicationController".
Definition k8sKindReplicaSet := "ReplicaSet".
Definition k8sStatefulSet := "StatefulSet".

(** [NewDataCollector]: an empty metrics cache, the zero metadata store,
    and the two report lists as given.  The logger has written nothing. *)
Definition NewDataCollector (nodeConditions allocatableTypes : list string) : DataCollector :=
  mkDataCollector [] (mkMetricsStore ∅) (mkMetadataStore None)
                  nodeConditions allocatableTypes.

(** A run that starts from a collector with no call made yet. *)
Definition start (d : DataCollector) : World := mkWorld d [].

Section Collector.
Context `{Collaborators}.

(** [ocsToMetrics]: the resource metrics of each translated request are
    moved, in order, to the end of the result. *)
Definition ocsToMetrics (ocs : list ExportMetricsServiceRequest) : Metrics :=
  foldl (fun md ocm => (md ++ OCToMetrics (ocNode ocm) (ocResource ocm) (ocMetrics ocm))%list)
        NewMetrics ocs.

(** [SetupMetadataStore] *)
Definition SetupMetadataStore (gvk : GroupVersionKind) (store : Store) : M unit :=
  d ← getCollector;
  _ ← invoke FnSetupStore;
  setMetadataStore (metadataStore_setupStore gvk store (metadataStore d)).

(** [RemoveFromMetricsStore] *)
Definition RemoveFromMetricsStore (obj : Obj) : M unit :=
  o ← assertRuntimeObject obj;
  d ← getCollector;
  _ ← invoke FnStoreRemove;
  let '(err, ms) := metricsStore_remove o (metricsStore d) in
  _ ← setMetricsStore ms;
  match err with
  | Some e =>
      ty ← typeString obj;
      loggerError "failed to remove from metric cache" [zapString "obj" ty; zapError e]
  | None => mret ()
  end.

(** [UpdateMetricsStore] *)
Definition UpdateMetricsStore (obj : Obj) (md : Metrics) : M unit :=
  o ← assertRuntimeObject obj;
  d ← getCollector;
  _ ← invoke FnStoreUpdate;
  let '(err, ms) := metricsStore_update o md (metricsStore d) in
  _ ← setMetricsStore ms;
  match err with
  | Some e =>
      ty ← typeString obj;
      loggerError "failed to update metric cache" [zapString "obj" ty; zapError e]
  | None => mret ()
  end.

(** [CollectMetricData] *)
Definition CollectMetricData (currentTime : N) : M Metrics :=
  d ← getCollector;
  _ ← invoke FnStoreGetMetricData;
  mret (metricsStore_getMetricData currentTime (metricsStore d)).

(** A call of a derivation function that is handed the logger. *)
Definition derivingWithLogger {A} (c : Callee) (r : A * list LogEntry) : M A :=
  _ ← invoke c; _ ← emit r.2; mret r.1.

Definition deriving {A} (c : Callee) (r : A) : M A :=
  _ ← invoke c; mret r.

(** The type switch of [SyncMetrics]: the metrics of a recognized kind, or
    nothing at the [default: return]. *)
Definition deriveMetrics (obj : Obj) : M (option Metrics) :=
  d ← getCollector;
  match obj with
  | OPod o =>
      ocs ← derivingWithLogger FnGetMetricsForPod (getMetricsForPod o);
      mret (Some (ocsToMetrics ocs))
  | ONode o =>
      ocs ← derivingWithLogger FnGetMetricsForNode
              (getMetricsForNode o (nodeConditionsToReport d) (allocatableTypesToReport d));
      mret (Some (ocsToMetrics ocs))
  | ONamespace o =>
      ocs ← deriving FnGetMetricsForNamespace (getMetricsForNamespace o);
      mret (Some (ocsToMetrics ocs))
  | OReplicationController o =>
      ocs ← deriving FnGetMetricsForReplicationController (getMetricsForReplicationController o);
      mret (Some (ocsToMetrics ocs))
  | OResourceQuota o =>
      ocs ← deriving FnGetMetricsForResourceQuota (getMetricsForResourceQuota o);
      mret (Some (ocsToMetrics ocs))
  | ODeployment o =>
      ocs ← deriving FnGetMetricsForDeployment (getMetricsForDeployment o);
      mret (Some (ocsToMetrics ocs))
  | OReplicaSet o =>
      ocs ← deriving FnGetMetricsForReplicaSet (getMetricsForReplicaSet o);
      mret (Some (ocsToMetrics ocs))
  | ODaemonSet o =>
      ocs ← deriving FnGetMetricsForDaemonSet (getMetricsForDaemonSet o);
      mret (Some (ocsToMetrics ocs))
  | OStatefulSet o =>
      ocs ← deriving FnGetMetricsForStatefulSet (getMetricsForStatefulSet o);
      mret (Some (ocsToMetrics ocs))
  | OJob o =>
      ocs ← deriving FnGetMetricsForJob (getMetricsForJob o);
      mret (Some (ocsToMetrics ocs))
  | OCronJob o =>
      ocs ← deriving FnGetMetricsForCronJob (getMetricsForCronJob o);
      mret (Some (ocsToMetrics ocs))
  | OCronJobBeta o =>
      ocs ← deriving FnGetMetricsForCronJobBeta (getMetricsForCronJobBeta o);
      mret (Some (ocsToMetrics ocs))
  | OHorizontalPodAutoscaler o =>
      ocs ← deriving FnGetMetricsForHPA (getMetricsForHPA o);
      mret (Some (ocsToMetrics ocs))
  | OClusterResourceQuota o =>
      ocs ← deriving FnGetMetricsForClusterResourceQuota (getMetricsForClusterResourceQuota o);
      mret (Some (ocsToMetrics ocs))
  | ORuntime _ _ | OForeign _ | ONil => mret None
  end.

(** [SyncMetrics]: the type switch, then the guard on the number of data
    points, then the write. *)
Definition SyncMetrics (obj : Obj) : M unit :=
  md ← deriveMetrics obj;
  match md with
  | None => mret ()
  | Some md =>
      if Nat.eqb (DataPointCount md) 0 then mret ()
      else UpdateMetricsStore obj md
  end.

(** [SyncMetadata]: [km] starts as an allocated empty map and is replaced
    by the result of the derivation function of a recognized kind. *)
Definition SyncMetadata (obj : Obj) : M MetadataMap :=
  d ← getCollector;
  let km : MetadataMap := Some ∅ in
  match obj with
  | OPod o => derivingWithLogger FnGetMetadataForPod (getMetadataForPod o (metadataStore d))
  | ONode o => deriving FnGetMetadataForNode (getMetadataForNode o)
  | OReplicationController o =>
      deriving FnGetMetadataForReplicationController (getMetadataForReplicationController o)
  | ODeployment o => deriving FnGetMetadataForDeployment (getMetadataForDeployment o)
  | OReplicaSet o => deriving FnGetMetadataForReplicaSet (getMetadataForReplicaSet o)
  | ODaemonSet o => deriving FnGetMetadataForDaemonSet (getMetadataForDaemonSet o)
  | OStatefulSet o => deriving FnGetMetadataForStatefulSet (getMetadataForStatefulSet o)
  | OJob o => deriving FnGetMetadataForJob (getMetadataForJob o)
  | OCronJob o => deriving FnGetMetadataForCronJob (getMetadataForCronJob o)
  | OCronJobBeta o => deriving FnGetMetadataForCronJobBeta (getMetadataForCronJobBeta o)
  | OHorizontalPodAutoscaler o => deriving FnGetMetadataForHPA (getMetadataForHPA o)
  | ONamespace _ | OResourceQuota _ | OClusterResourceQuota _
  | ORuntime _ _ | OForeign _ | ONil => mret km
  end.

End Collector.

(** ** A concrete set of collaborators

    Used to run the collector on examples: every derivation function
    reports one metric with one data point per field of the object, and the
    metadata functions describe the object under its UID. *)
Module Sample.

Definition request (name : string) (o : Resource) : list ExportMetricsServiceRequest :=
  [mkRequest None [("k8s.uid", metaUID (objectMeta o))]
             [mkOCMetric name ((fun _ => 1%Z) <$> fields o)]].

Definition describe (key : string) (o : Resource) : MetadataMap :=
  Some {[ metaUID (objectMeta o) :=
            mkKubernetesMetadata key (metaUID (objectMeta o)) (list_to_map (fields o)) ]}.

Definition translate (node : option string) (res : list (string * string))
    (ms : list OCMetric) : Metrics :=
  [mkResourceMetrics res
     [mkScopeMetrics ((fun m => mkMetric (ocName m) (mkDataPoint 0 <$> ocPoints m)) <$> ms)]].

Definition collaborators : Collaborators := {|
  getMetricsForPod o := (request "k8s.pod.phase" o, []);
  getMetricsForNode o _ _ := (request "k8s.node.condition" o, []);
  getMetricsForNamespace := request "k8s.namespace.phase";
  getMetricsForReplicationController := request "k8s.replication_controller.available";
  getMetricsForResourceQuota := request "k8s.resource_quota.used";
  getMetricsForDeployment := request "k8s.deployment.available";
  getMetricsForReplicaSet := request "k8s.replicaset.available";
  getMetricsForDaemonSet := request "k8s.daemonset.ready_nodes";
  getMetricsForStatefulSet := request "k8s.statefulset.ready_pods";
  getMetricsForJob := request "k8s.job.active_pods";
  getMetricsForCronJob := request "k8s.cronjob.active_jobs";
  getMetricsForCronJobBeta := request "k8s.cronjob.active_jobs";
  getMetricsForHPA := request "k8s.hpa.current_replicas";
  getMetricsForClusterResourceQuota := request "openshift.clusterquota.used";
  getMetadataForPod o _ := (describe "k8s.pod.uid" o, []);
  getMetadataForNode := describe "k8s.node.uid";
  getMetadataForReplicationController := describe k8sKeyReplicationControllerUID;
  getMetadataForDeployment := describe "k8s.deployment.uid";
  getMetadataForReplicaSet := describe "k8s.replicaset.uid";
  getMetadataForDaemonSet := describe "k8s.daemonset.uid";
  getMetadataForStatefulSet := describe "k8s.statefulset.uid";
  getMetadataForJob := describe "k8s.job.uid";
  getMetadataForCronJob := describe "k8s.cronjob.uid";
  getMetadataForCronJobBeta := describe "k8s.cronjob.uid";
  getMetadataForHPA := describe k8sKeyHPAUID;
  OCToMetrics := translate
|}.

Definition web : Resource :=
  mkResource (mkObjectMeta "uid-web" "default" "web") [("replicas", "3")].

(** The same object when its derivation has nothing to report. *)
Definition webIdle : Resource :=
  mkResource (mkObjectMeta "uid-web" "default" "web") [].

Definition webMetrics : Metrics :=
  [mkResourceMetrics [("k8s.uid", "uid-web")]
     [mkScopeMetrics [mkMetric "k8s.deployment.available" [mkDataPoint 0 1]]]].

(** A collector that has already stored metrics for [web]. *)
Definition tracking : DataCollector :=
  mkDataCollector [] (mkMetricsStore {[ "uid-web" := webMetrics ]})
                  (mkMetadataStore None) [] [].

Definition node : Resource :=
  mkResource (mkObjectMeta "uid-node" "" "node-1") [("ready", "true")].

(** The world after [SyncMetrics] has stored the metrics of [web] in a
    fresh collector. *)
Definition afterWebSync : World :=
  mkWorld (mkDataCollector [] (mkMetricsStore {[ "uid-web" := webMetrics ]})
                           (mkMetadataStore None) [] [])
          [FnGetMetricsForDeployment; FnStoreUpdate].

End Sample.

(** * Properties *)

(** The calls a method makes when run on a collector. *)
Definition callsOf {A} (m : M A) (d : DataCollector) : list Callee :=
  match m (start d) with
  | Returned _ w => calls w
  | Panicked _ => []
  end.

(** A dispatching method recognizes an object when running it on the
    object reaches a collaborator. *)
Definition recognizes {A} (method : Obj -> M A) (obj : Obj) : Prop :=
  forall d, callsOf (method obj) d <> [].

Definition isNamespace (obj : Obj) : bool :=
  match obj with ONamespace _ => true | _ => false end.
Definition isResourceQuota (obj : Obj) : bool :=
  match obj with OResourceQuota _ => true | _ => false end.
Definition isClusterResourceQuota (obj : Obj) : bool :=
  match obj with OClusterResourceQuota _ => true | _ => false end.

(** The dynamic types outside the fourteen resource kinds. *)
Definition unrecognizedKind (obj : Obj) : bool :=
  match obj with
  | ORuntime _ _ | OForeign _ | ONil => true
  | _ => false
  end.

(** All data points of a collection of metrics. *)
Definition pointsOf (md : Metrics) : list DataPoint :=
  rm ← md; sm ← rmScopeMetrics rm; m ← smMetrics sm; metricDataPoints m.

(** ** Sequences of calls

    The surrounding pipeline drives the collector through its exported
    methods, one call after another. *)
Inductive MethodCall :=
| CallSetupMetadataStore (gvk : GroupVersionKind) (store : Store)
| CallRemoveFromMetricsStore (obj : Obj)
| CallUpdateMetricsStore (obj : Obj) (md : Metrics)
| CallCollectMetricData (currentTime : N)
| CallSyncMetrics (obj : Obj)
| CallSyncMetadata (obj : Obj).

(** The calls that pass the assertion to [runtime.Object], if they make
    one. *)
Definition assertionHolds (c : MethodCall) : bool :=
  match c with
  | CallRemoveFromMetricsStore obj | CallUpdateMetricsStore obj _ =>
      implementsRuntimeObject obj
  | _ => true
  end.

(** The calls that can change the metrics cache. *)
Definition writesMetrics (c : MethodCall) : bool :=
  match c with
  | CallRemoveFromMetricsStore _ | CallUpdateMetricsStore _ _ | CallSyncMetrics _ => true
  | _ => false
  end.

Definition isRemoval (c : MethodCall) : bool :=
  match c with
  | CallRemoveFromMetricsStore _ => true
  | _ => false
  end.

Definition isSetup (c : MethodCall) : bool :=
  match c with
  | CallSetupMetadataStore _ _ => true
  | _ => false
  end.

(** Every entry of the cache holds at least one data point. *)
Definition entriesNonEmpty (ms : MetricsStore) : Prop :=
  forall uid md, metricsCache ms !! uid = Some md -> DataPointCount md <> 0.

Section Calls.
Context `{Collaborators}.

(** The translation of one request, as [ocsToMetrics] calls it. *)
Definition translateRequest (ocm : ExportMetricsServiceRequest) : Metrics :=
  OCToMetrics (ocNode ocm) (ocResource ocm) (ocMetrics ocm).

(** One call, with its result dropped. *)
Definition perform (c : MethodCall) : M unit :=
  match c with
  | CallSetupMetadataStore gvk store => SetupMetadataStore gvk store
  | CallRemoveFromMetricsStore obj => RemoveFromMetricsStore obj
  | CallUpdateMetricsStore obj md => UpdateMetricsStore obj md
  | CallCollectMetricData t => _ ← CollectMetricData t; mret ()
  | CallSyncMetrics obj => SyncMetrics obj
  | CallSyncMetadata obj => _ ← SyncMetadata obj; mret ()
  end.

Fixpoint performAll (cs : list MethodCall) : M unit :=
  match cs with
  | [] => mret ()
  | c :: cs' => _ ← perform c; performAll cs'
  end.

End Calls.

(** Two sequences of calls to run as examples. *)
Definition sampleCalls : list MethodCall :=
  [CallSetupMetadataStore ("", "v1", "Node") ∅;
   CallSyncMetrics (ODeployment Sample.web);
   CallSyncMetadata (OPod Sample.web);
   CallCollectMetricData 7;
   CallSyncMetrics (ODeployment Sample.webIdle);
   CallRemoveFromMetricsStore (ORuntime "*v1.Status" None)].

(** Calls that write to the cache, none of them a removal. *)
Definition writingCalls : list MethodCall :=
  [CallSyncMetrics (ODeployment Sample.webIdle);
   CallUpdateMetricsStore (ONode Sample.node) Sample.webMetrics;
   CallSyncMetrics (OPod Sample.web);
   CallUpdateMetricsStore (ORuntime "*v1.Status" None) Sample.webMetrics;
   CallSyncMetrics (ONode Sample.node);
   CallCollectMetricData 7].

Definition readOnlyCalls : list MethodCall :=
  [CallSyncMetadata (OPod Sample.web); CallCollectMetricData 7;
   CallSyncMetadata (ONamespace Sample.web)].

(** The entries the facade writes when a store operation fails. *)
Definition updateFailure (ty : string) (e : error) : LogEntry :=
  mkLogEntry "error" "failed to update metric cache" [zapString "obj" ty; zapError e].

Definition removeFailure (ty : string) (e : error) : LogEntry :=
  mkLogEntry "error" "failed to remove from metric cache" [zapString "obj" ty; zapError e].

Ltac run :=
  unfold SyncMetrics, SyncMetadata, deriveMetrics, UpdateMetricsStore,
    RemoveFromMetricsStore, CollectMetricData, SetupMetadataStore,
    derivingWithLogger, deriving, loggerError, assertRuntimeObject, typeString,
    getCollector, invoke, emit, setMetricsStore, setMetadataStore, panic,
    mbind, M_bind, mret, M_ret in *;
  simpl in *.

Section Properties.
Context `{Collaborators}.

Lemma sum_of_app {A} (f : A -> nat) (l k : list A) :
  sum_of f (l ++ k) = sum_of f l + sum_of f k.
Proof.
  induction l as [|x l IH]; simpl; [done|].
  rewrite IH. lia.
Qed.

Lemma addLogs_nil (d : DataCollector) : addLogs [] d = d.
Proof. destruct d; unfold addLogs; simpl. by rewrite app_nil_r. Qed.

(** The type switch only derives: it leaves both stores alone, adds log
    entries at most, and calls neither store operation. *)
Lemma deriveMetrics_frame (obj : Obj) (w : World) :
  exists r es cs,
    deriveMetrics obj w = Returned r (mkWorld (addLogs es (dc w)) (calls w ++ cs)) /\
    (FnStoreUpdate ∉ cs) /\ (FnStoreRemove ∉ cs).
Proof.
  destruct w as [d cs0].
  destruct obj; run.
  1-2: eexists _, _, [_]; split; [reflexivity|];
       split; intros Hin; apply list_elem_of_singleton in Hin; discriminate.
  1-12: eexists _, [], [_]; rewrite addLogs_nil; split; [reflexivity|];
       split; intros Hin; apply list_elem_of_singleton in Hin; discriminate.
  all: exists None, [], []; rewrite addLogs_nil, app_nil_r;
       split; [done|]; split; apply not_elem_of_nil.
Qed.

Lemma withMetricsStore_same (d : DataCollector) :
  withMetricsStore (metricsStore d) d = d.
Proof. by destruct d. Qed.

(** A store operation that fails leaves the store as it was. *)
Lemma metricsStore_update_error (obj : Obj) (md : Metrics) (ms : MetricsStore) (e : error) :
  (metricsStore_update obj md ms).1 = Some e ->
  (metricsStore_update obj md ms).2 = ms.
Proof.
  unfold metricsStore_update. destruct (resolveIdentity obj); [|done].
  destruct (Nat.eqb (DataPointCount md) 0); discriminate.
Qed.

Lemma metricsStore_remove_error (obj : Obj) (ms : MetricsStore) (e : error) :
  (metricsStore_remove obj ms).1 = Some e ->
  (metricsStore_remove obj ms).2 = ms.
Proof.
  unfold metricsStore_remove. destruct (resolveIdentity obj); [discriminate|done].
Qed.

(** What [UpdateMetricsStore] does with a [runtime.Object]. *)
Lemma UpdateMetricsStore_runtime (obj : Obj) (md : Metrics) (w : World) :
  implementsRuntimeObject obj = true ->
  exists ty, TypeOf obj = Some ty /\
    UpdateMetricsStore obj md w =
    let r := metricsStore_update obj md (metricsStore (dc w)) in
    Returned () (mkWorld (addLogs (match r.1 with Some e => [updateFailure ty e] | None => [] end)
                                  (withMetricsStore r.2 (dc w)))
                         (calls w ++ [FnStoreUpdate])).
Proof.
  intros Hrt. destruct w as [d cs0].
  destruct obj; try discriminate; eexists; (split; [reflexivity|]);
    run; unfold metricsStore_update, resolveIdentity; simpl;
    try destruct meta; simpl; try destruct (Nat.eqb (DataPointCount md) 0);
    simpl; rewrite ?addLogs_nil; reflexivity.
Qed.

(** What [RemoveFromMetricsStore] does with a [runtime.Object]. *)
Lemma RemoveFromMetricsStore_runtime (obj : Obj) (w : World) :
  implementsRuntimeObject obj = true ->
  exists ty, TypeOf obj = Some ty /\
    RemoveFromMetricsStore obj w =
    let r := metricsStore_remove obj (metricsStore (dc w)) in
    Returned () (mkWorld (addLogs (match r.1 with Some e => [removeFailure ty e] | None => [] end)
                                  (withMetricsStore r.2 (dc w)))
                         (calls w ++ [FnStoreRemove])).
Proof.
  intros Hrt. destruct w as [d cs0].
  destruct obj; try discriminate; eexists; (split; [reflexivity|]);
    run; unfold metricsStore_remove, resolveIdentity; simpl;
    try destruct meta; simpl; rewrite ?addLogs_nil; reflexivity.
Qed.

(** [SyncMetrics] returns for every object: the kinds that reach the write
    are resource kinds, which pass the assertion to [runtime.Object]. *)
Lemma SyncMetrics_returns (obj : Obj) (w : World) :
  exists w', SyncMetrics obj w = Returned () w'.
Proof.
  unfold SyncMetrics, mbind, M_bind at 1.
  destruct (deriveMetrics_frame obj w) as (r & es & cs & Hrun & _).
  rewrite Hrun. destruct r as [md|]; [|eexists; reflexivity].
  destruct (Nat.eqb (DataPointCount md) 0); [eexists; reflexivity|].
  destruct obj;
    try (destruct w as [d cs0]; revert Hrun; run; discriminate);
    match goal with
    | |- context [UpdateMetricsStore ?o ?m ?w1] =>
        destruct (UpdateMetricsStore_runtime o m w1 eq_refl) as (ty & _ & ->)
    end; eexists; reflexivity.
Qed.

(** C1. When the derivation for a resource object yields metrics with zero
    data points, [SyncMetrics] returns right after the derivation without
    calling the store's update, so the metrics store is what it was before
    and an entry stored earlier for the object's identity is still there. *)
Theorem SyncMetrics_skips_empty_derivation
    (obj : Obj) (d : DataCollector) (md : Metrics) (w1 : World) :
  deriveMetrics obj (start d) = Returned (Some md) w1 ->
  DataPointCount md = 0 ->
  SyncMetrics obj (start d) = Returned () w1 /\
  (FnStoreUpdate ∉ calls w1) /\
  (FnStoreRemove ∉ calls w1) /\
  metricsStore (dc w1) = metricsStore d /\
  (forall uid, metricsCache (metricsStore (dc w1)) !! uid
               = metricsCache (metricsStore d) !! uid).
Proof.
  intros Hderive Hzero.
  assert (Hsync : SyncMetrics obj (start d) = Returned () w1).
  { unfold SyncMetrics, mbind, M_bind at 1. rewrite Hderive, Hzero. reflexivity. }
  destruct (deriveMetrics_frame obj (start d)) as (r & es & cs & Hrun & Hup & Hrm).
  rewrite Hrun in Hderive. injection Hderive as _ <-. simpl.
  repeat split; done.
Qed.

Lemma SyncMetrics_default (obj : Obj) (w : World) :
  unrecognizedKind obj = true ->
  SyncMetrics obj w = Returned () w.
Proof.
  destruct w as [d cs0].
  destruct obj; simpl; intros Hkind; try discriminate; reflexivity.
Qed.

(** C2. For an object whose dynamic type is none of the recognized
    resource kinds, the nil interface included, [SyncMetrics] returns at
    once: no derivation function is called, the store is not written,
    nothing is logged and nothing panics. *)
Theorem SyncMetrics_ignores_unrecognized_kind (obj : Obj) (w : World) :
  unrecognizedKind obj = true ->
  SyncMetrics obj w = Returned () w.
Proof. apply SyncMetrics_default. Qed.

(** C3. When the store's update or removal, handed a [runtime.Object],
    returns an error, the facade appends one error entry to the log, which
    carries the object's dynamic type and the error, changes nothing else
    of the collector, and returns normally; and [SyncMetrics] returns
    normally on every object. *)
Theorem write_path_absorbs_store_errors
    (obj : Obj) (md : Metrics) (d : DataCollector) (e : error) :
  implementsRuntimeObject obj = true ->
  ((metricsStore_update obj md (metricsStore d)).1 = Some e ->
   exists ty w', TypeOf obj = Some ty /\
     UpdateMetricsStore obj md (start d) = Returned () w' /\
     logger (dc w')
     = logger d ++ [mkLogEntry "error" "failed to update metric cache"
                               [zapString "obj" ty; zapError e]] /\
     metricsStore (dc w') = metricsStore d /\
     metadataStore (dc w') = metadataStore d /\
     nodeConditionsToReport (dc w') = nodeConditionsToReport d /\
     allocatableTypesToReport (dc w') = allocatableTypesToReport d /\
     calls w' = [FnStoreUpdate]) /\
  ((metricsStore_remove obj (metricsStore d)).1 = Some e ->
   exists ty w', TypeOf obj = Some ty /\
     RemoveFromMetricsStore obj (start d) = Returned () w' /\
     logger (dc w')
     = logger d ++ [mkLogEntry "error" "failed to remove from metric cache"
                               [zapString "obj" ty; zapError e]] /\
     metricsStore (dc w') = metricsStore d /\
     metadataStore (dc w') = metadataStore d /\
     nodeConditionsToReport (dc w') = nodeConditionsToReport d /\
     allocatableTypesToReport (dc w') = allocatableTypesToReport d /\
     calls w' = [FnStoreRemove]) /\
  (forall w, exists w', SyncMetrics obj w = Returned () w').
Proof.
  intros Hrt. split; [|split].
  - intros Herr.
    destruct (UpdateMetricsStore_runtime obj md (start d) Hrt) as (ty & Hty & Hrun).
    eexists ty, _. split; [exact Hty|]. split; [exact Hrun|]. simpl.
    rewrite Herr, (metricsStore_update_error _ _ _ _ Herr). by repeat split.
  - intros Herr.
    destruct (RemoveFromMetricsStore_runtime obj (start d) Hrt) as (ty & Hty & Hrun).
    eexists ty, _. split; [exact Hty|]. split; [exact Hrun|]. simpl.
    rewrite Herr, (metricsStore_remove_error _ _ _ Herr). by repeat split.
  - intros w. apply SyncMetrics_returns.
Qed.

Lemma SyncMetrics_unfold (obj : Obj) (w : World) :
  SyncMetrics obj w =
  match deriveMetrics obj w with
  | Returned (Some md) w1 =>
      if Nat.eqb (DataPointCount md) 0 then Returned () w1
      else UpdateMetricsStore obj md w1
  | Returned None w1 => Returned () w1
  | Panicked r => Panicked r
  end.
Proof.
  unfold SyncMetrics, mbind, M_bind at 1.
  destruct (deriveMetrics obj w) as [[md|] w1|r]; try reflexivity.
  destruct (Nat.eqb (DataPointCount md) 0); reflexivity.
Qed.

Lemma recognizes_SyncMetrics (obj : Obj) :
  recognizes SyncMetrics obj <-> unrecognizedKind obj = false.
Proof.
  split.
  - intros Hrec. destruct (unrecognizedKind obj) eqn:Hkind; [|done].
    exfalso. apply (Hrec (NewDataCollector [] [])).
    unfold callsOf. by rewrite SyncMetrics_default.
  - intros Hkind d. unfold callsOf. rewrite SyncMetrics_unfold.
    destruct obj; try discriminate; run;
      match goal with
      | |- context [Nat.eqb ?n 0] => destruct (Nat.eqb n 0)
      end; try discriminate;
      unfold metricsStore_update, resolveIdentity; simpl;
      match goal with
      | |- context [Nat.eqb ?n 0] => destruct (Nat.eqb n 0)
      end; discriminate.
Qed.

Lemma recognizes_SyncMetadata (obj : Obj) :
  recognizes SyncMetadata obj <->
  unrecognizedKind obj = false /\ isNamespace obj = false /\
  isResourceQuota obj = false /\ isClusterResourceQuota obj = false.
Proof.
  split.
  - intros Hrec. specialize (Hrec (NewDataCollector [] [])).
    destruct obj; try done; exfalso; apply Hrec; reflexivity.
  - intros (Hk & Hn & Hq & Hc) d.
    destruct obj; try discriminate; unfold callsOf; run; discriminate.
Qed.

(** C5, as the code has it. [SyncMetadata] recognizes the kinds that
    [SyncMetrics] recognizes except Namespace, ResourceQuota and
    ClusterResourceQuota, and for an object it does not recognize it returns
    the allocated empty map and changes nothing. *)
Theorem SyncMetadata_recognized_kinds (obj : Obj) :
  (recognizes SyncMetadata obj <->
   recognizes SyncMetrics obj /\ isNamespace obj = false /\
   isResourceQuota obj = false /\ isClusterResourceQuota obj = false) /\
  (~ recognizes SyncMetadata obj ->
   forall w, SyncMetadata obj w = Returned (Some ∅) w).
Proof.
  rewrite recognizes_SyncMetadata, recognizes_SyncMetrics. split; [done|].
  intros Hnot [d cs0].
  destruct obj; try reflexivity; exfalso; apply Hnot; done.
Qed.

(** C7. [SyncMetadata] returns the mapping to its caller and writes to
    neither store: the metrics store, every snapshot of it, and the
    caches registered in the metadata store are the same after the call as
    before, and no store operation is called. *)
Theorem SyncMetadata_leaves_stores (obj : Obj) (w : World) :
  exists km w',
    SyncMetadata obj w = Returned km w' /\
    metricsStore (dc w') = metricsStore (dc w) /\
    metadataStore (dc w') = metadataStore (dc w) /\
    (forall t, metricsStore_getMetricData t (metricsStore (dc w'))
               = metricsStore_getMetricData t (metricsStore (dc w))) /\
    (forall c, c ∈ [FnStoreUpdate; FnStoreRemove; FnSetupStore] ->
               c ∈ calls w' -> c ∈ calls w).
Proof.
  destruct w as [d cs0].
  destruct obj; run; eexists _, _; (split; [reflexivity|]); simpl;
    (repeat split; [done..|]);
    intros c Hc Hin; try done;
    apply elem_of_app in Hin as [Hin|Hin]; try done;
    apply list_elem_of_singleton in Hin; subst c;
    repeat (apply elem_of_cons in Hc as [Hc|Hc]; [discriminate|]);
    by apply elem_of_nil in Hc.
Qed.

Lemma elem_of_pointsOf (p : DataPoint) (md : Metrics) :
  p ∈ pointsOf md <->
  exists rm sm m, rm ∈ md /\ sm ∈ rmScopeMetrics rm /\ m ∈ smMetrics sm /\
                  p ∈ metricDataPoints m.
Proof.
  unfold pointsOf. rewrite list_elem_of_bind. split.
  - intros (rm & Hp & Hrm). apply list_elem_of_bind in Hp as (sm & Hp & Hsm).
    apply list_elem_of_bind in Hp as (m & Hp & Hm). by exists rm, sm, m.
  - intros (rm & sm & m & Hrm & Hsm & Hm & Hp). exists rm. split; [|done].
    apply list_elem_of_bind. exists sm. split; [|done].
    apply list_elem_of_bind. by exists m.
Qed.

(** Every data point of a stamped resource carries the stamp. *)
Lemma applyCurrentTime_stamps (t : N) (md : Metrics) (p : DataPoint) :
  p ∈ pointsOf (applyCurrentTime t <$> md) -> dpTimestamp p = t.
Proof.
  rewrite elem_of_pointsOf. intros (rm & sm & m & Hrm & Hsm & Hm & Hp).
  apply list_elem_of_fmap in Hrm as (rm0 & -> & _). simpl in Hsm.
  apply list_elem_of_fmap in Hsm as (sm0 & -> & _). simpl in Hm.
  apply list_elem_of_fmap in Hm as (m0 & -> & _). simpl in Hp.
  apply list_elem_of_fmap in Hp as (p0 & -> & _). reflexivity.
Qed.

(** A resource of the snapshot is the stamped copy of a resource of some
    stored entry. *)
Lemma elem_of_getMetricData (t : N) (ms : MetricsStore) (rm : ResourceMetrics) :
  rm ∈ metricsStore_getMetricData t ms <->
  exists uid md rm0, metricsCache ms !! uid = Some md /\ rm0 ∈ md /\
                     rm = applyCurrentTime t rm0.
Proof.
  unfold metricsStore_getMetricData. rewrite list_elem_of_join. split.
  - intros (l & Hrm & Hl). apply list_elem_of_fmap in Hl as ([uid md] & -> & Hkv).
    apply elem_of_map_to_list in Hkv. simpl in Hrm.
    apply list_elem_of_fmap in Hrm as (rm0 & -> & Hrm0). by exists uid, md, rm0.
  - intros (uid & md & rm0 & Hlook & Hrm0 & ->).
    exists (applyCurrentTime t <$> md). split.
    + apply list_elem_of_fmap. by exists rm0.
    + apply list_elem_of_fmap. exists (uid, md). split; [done|].
      by apply elem_of_map_to_list.
Qed.

Lemma getMetricData_stamped (t : N) (ms : MetricsStore) (p : DataPoint) :
  p ∈ pointsOf (metricsStore_getMetricData t ms) -> dpTimestamp p = t.
Proof.
  rewrite elem_of_pointsOf. intros (rm & sm & m & Hrm & Hsm & Hm & Hp).
  apply elem_of_getMetricData in Hrm as (uid & md & rm0 & _ & Hrm0 & ->).
  apply (applyCurrentTime_stamps t [rm0]). apply elem_of_pointsOf.
  exists (applyCurrentTime t rm0), sm, m. repeat split; try done.
  simpl. apply list_elem_of_singleton. reflexivity.
Qed.

(** C8. [CollectMetricData] hands back the store's snapshot for the given
    time and changes nothing in the collector; every data point of the
    result carries that time; and on a collector fresh from
    [NewDataCollector] the result is empty. *)
Theorem CollectMetricData_is_snapshot (currentTime : N) (d : DataCollector) :
  CollectMetricData currentTime (start d)
  = Returned (metricsStore_getMetricData currentTime (metricsStore d))
             (mkWorld d [FnStoreGetMetricData]) /\
  (forall p, p ∈ pointsOf (metricsStore_getMetricData currentTime (metricsStore d)) ->
             dpTimestamp p = currentTime) /\
  (forall nc at_,
     CollectMetricData currentTime (start (NewDataCollector nc at_))
     = Returned [] (mkWorld (NewDataCollector nc at_) [FnStoreGetMetricData])).
Proof.
  split; [reflexivity|]. split; [|reflexivity].
  intros p. apply getMetricData_stamped.
Qed.

(** Only a [runtime.Object] has an identity. *)
Lemma resolveIdentity_runtime (obj : Obj) (uid : UID) :
  resolveIdentity obj = Ok uid -> implementsRuntimeObject obj = true.
Proof. destruct obj; done. Qed.

(** What a removal with a resolvable identity does. *)
Lemma RemoveFromMetricsStore_resolved (obj : Obj) (uid : UID) (w : World) :
  resolveIdentity obj = Ok uid ->
  RemoveFromMetricsStore obj w
  = Returned () (mkWorld (withMetricsStore
                            (mkMetricsStore (delete uid (metricsCache (metricsStore (dc w)))))
                            (dc w))
                         (calls w ++ [FnStoreRemove])).
Proof.
  intros Hid.
  destruct (RemoveFromMetricsStore_runtime obj w (resolveIdentity_runtime _ _ Hid))
    as (ty & _ & ->).
  unfold metricsStore_remove. rewrite Hid. simpl. by rewrite addLogs_nil.
Qed.

(** C9. A removal for an object whose identity resolves returns without
    reporting an error and leaves the cache without an entry for that
    identity, whatever was stored before: every resource of a snapshot
    taken afterwards comes from the entry of another identity.  When the
    identity was absent already, the collector is unchanged. *)
Theorem RemoveFromMetricsStore_removes (obj : Obj) (uid : UID) (d : DataCollector) :
  resolveIdentity obj = Ok uid ->
  exists w',
    RemoveFromMetricsStore obj (start d) = Returned () w' /\
    logger (dc w') = logger d /\
    metricsCache (metricsStore (dc w')) = delete uid (metricsCache (metricsStore d)) /\
    metricsCache (metricsStore (dc w')) !! uid = None /\
    (forall t rm,
       rm ∈ metricsStore_getMetricData t (metricsStore (dc w')) ->
       exists uid' md rm0,
         uid' <> uid /\ metricsCache (metricsStore d) !! uid' = Some md /\
         rm0 ∈ md /\ rm = applyCurrentTime t rm0) /\
    (metricsCache (metricsStore d) !! uid = None -> dc w' = d).
Proof.
  intros Hid. eexists. split; [by apply RemoveFromMetricsStore_resolved|]. simpl.
  split; [done|]. split; [done|]. split; [apply lookup_delete_eq|]. split.
  - intros t rm Hrm.
    apply elem_of_getMetricData in Hrm as (uid' & md & rm0 & Hlook & Hrm0 & ->).
    simpl in Hlook. apply lookup_delete_Some in Hlook as [Hne Hlook].
    by exists uid', md, rm0.
  - intros Habsent. rewrite delete_id by done.
    destruct d as [? [?] ? ? ?]; reflexivity.
Qed.

(** ** [ocsToMetrics] *)

Lemma ocsToMetrics_from (acc : Metrics) (ocs : list ExportMetricsServiceRequest) :
  foldl (fun md ocm => (md ++ OCToMetrics (ocNode ocm) (ocResource ocm) (ocMetrics ocm))%list)
        acc ocs
  = (acc ++ mjoin (translateRequest <$> ocs))%list.
Proof.
  revert acc. induction ocs as [|ocm ocs IH]; intros acc; simpl.
  - by rewrite app_nil_r.
  - rewrite IH. by rewrite <- app_assoc.
Qed.

(** X1. [ocsToMetrics] yields the resource metrics of the translated
    requests, joined in the order of the requests; so it distributes over
    the concatenation of request lists. *)
Theorem ocsToMetrics_joins_in_order (ocs more : list ExportMetricsServiceRequest) :
  ocsToMetrics ocs = mjoin (translateRequest <$> ocs) /\
  ocsToMetrics (ocs ++ more) = (ocsToMetrics ocs ++ ocsToMetrics more)%list.
Proof.
  assert (Hjoin : forall l, ocsToMetrics l = mjoin (translateRequest <$> l)).
  { intros l. unfold ocsToMetrics. by rewrite ocsToMetrics_from. }
  split; [apply Hjoin|].
  rewrite !Hjoin, fmap_app. apply join_app.
Qed.

Lemma DataPointCount_app (md1 md2 : Metrics) :
  DataPointCount (md1 ++ md2) = DataPointCount md1 + DataPointCount md2.
Proof. apply sum_of_app. Qed.

Lemma DataPointCount_ocsToMetrics (ocs : list ExportMetricsServiceRequest) :
  DataPointCount (ocsToMetrics ocs)
  = sum_of (fun ocm => DataPointCount (translateRequest ocm)) ocs.
Proof.
  unfold ocsToMetrics. rewrite ocsToMetrics_from. simpl.
  induction ocs as [|ocm ocs IH]; [done|].
  rewrite fmap_cons. csimpl. rewrite DataPointCount_app, IH. done.
Qed.

(** X2. The data points of [ocsToMetrics] are those of the translated
    requests added up; the result has none exactly when no request
    translates to any, which is when [SyncMetrics] skips the write. *)
Theorem ocsToMetrics_counts_points (ocs : list ExportMetricsServiceRequest) :
  DataPointCount (ocsToMetrics ocs)
  = sum_of (fun ocm => DataPointCount (translateRequest ocm)) ocs /\
  (DataPointCount (ocsToMetrics ocs) = 0 <->
   Forall (fun ocm => DataPointCount (translateRequest ocm) = 0) ocs).
Proof.
  split; [apply DataPointCount_ocsToMetrics|].
  rewrite DataPointCount_ocsToMetrics.
  induction ocs as [|ocm ocs IH]; simpl.
  - split; [constructor|done].
  - rewrite Forall_cons, <- IH. lia.
Qed.

Lemma sum_of_nonzero {A} (f : A -> nat) (l : list A) :
  sum_of f l <> 0 -> exists x, x ∈ l /\ f x <> 0.
Proof.
  induction l as [|x l IH]; simpl; [done|]. intros Hsum.
  destruct (decide (f x = 0)) as [Hx|Hx].
  - destruct IH as (y & Hy & Hfy); [lia|]. exists y. split; [by right|done].
  - exists x. split; [by left|done].
Qed.

Lemma sum_of_elem {A} (f : A -> nat) (l : list A) (x : A) :
  x ∈ l -> f x <> 0 -> sum_of f l <> 0.
Proof.
  intros Hin Hx. induction l as [|y l IH]; [by apply elem_of_nil in Hin|].
  simpl. apply elem_of_cons in Hin as [<-|Hin]; [lia|].
  specialize (IH Hin). lia.
Qed.

Lemma sum_of_fmap {A B} (f : B -> nat) (g : A -> B) (l : list A) :
  sum_of f (g <$> l) = sum_of (fun x => f (g x)) l.
Proof.
  unfold sum_of. induction l as [|x l IH]; [done|].
  rewrite fmap_cons. cbn [foldr]. by rewrite IH.
Qed.

Lemma sum_of_ext {A} (f g : A -> nat) (l : list A) :
  (forall x, f x = g x) -> sum_of f l = sum_of g l.
Proof. intros Hfg. induction l as [|x l IH]; simpl; [done|]. by rewrite Hfg, IH. Qed.

(** Stamping changes timestamps, not the number of data points. *)
Lemma resourcePoints_applyCurrentTime (t : N) (rm : ResourceMetrics) :
  resourcePoints (applyCurrentTime t rm) = resourcePoints rm.
Proof.
  unfold resourcePoints. simpl. rewrite sum_of_fmap. apply sum_of_ext. intros sm.
  unfold scopePoints. simpl. rewrite sum_of_fmap. apply sum_of_ext. intros m.
  unfold metricPoints. simpl. apply length_fmap.
Qed.

(** ** The write path *)

(** A store entry point returns exactly on a [runtime.Object]. *)
Lemma entry_points_panic_free (obj : Obj) (md : Metrics) (w : World) :
  ((exists w', RemoveFromMetricsStore obj w = Returned () w') <->
   implementsRuntimeObject obj = true) /\
  ((exists w', UpdateMetricsStore obj md w = Returned () w') <->
   implementsRuntimeObject obj = true).
Proof.
  destruct (implementsRuntimeObject obj) eqn:Hrt.
  - destruct (UpdateMetricsStore_runtime obj md w Hrt) as (ty & _ & ->).
    destruct (RemoveFromMetricsStore_runtime obj w Hrt) as (ty' & _ & ->).
    split; (split; [done|]); intros _; eexists; reflexivity.
  - unfold UpdateMetricsStore, RemoveFromMetricsStore, assertRuntimeObject.
    rewrite Hrt. split; (split; [|done]); intros [w' Hrun]; discriminate.
Qed.

(** X3. The two store entry points panic exactly on the values that are
    not a [runtime.Object], the nil interface among them; on every other
    value they return. *)
Theorem entry_points_panic_iff_not_runtime_object (obj : Obj) (md : Metrics) (w : World) :
  ((exists r, UpdateMetricsStore obj md w = Panicked r) <-> implementsRuntimeObject obj = false) /\
  ((exists r, RemoveFromMetricsStore obj w = Panicked r) <-> implementsRuntimeObject obj = false) /\
  ((exists w', UpdateMetricsStore obj md w = Returned () w') <-> implementsRuntimeObject obj = true) /\
  ((exists w', RemoveFromMetricsStore obj w = Returned () w') <-> implementsRuntimeObject obj = true).
Proof.
  destruct (entry_points_panic_free obj md w) as [Hr Hu].
  split; [|split; [|split; [exact Hu|exact Hr]]].
  - destruct (UpdateMetricsStore obj md w) as [[] w'|r] eqn:Hrun.
    + assert (Hrt : implementsRuntimeObject obj = true) by (apply Hu; by eexists).
      rewrite Hrt. split; [intros [r Hp]; discriminate|discriminate].
    + destruct (implementsRuntimeObject obj); [|split; [done|by eexists]].
      destruct (proj2 Hu eq_refl) as [w' Hw']. discriminate.
  - destruct (RemoveFromMetricsStore obj w) as [[] w'|r] eqn:Hrun.
    + assert (Hrt : implementsRuntimeObject obj = true) by (apply Hr; by eexists).
      rewrite Hrt. split; [intros [r Hp]; discriminate|discriminate].
    + destruct (implementsRuntimeObject obj); [|split; [done|by eexists]].
      destruct (proj2 Hr eq_refl) as [w' Hw']. discriminate.
Qed.

(** A resource kind resolves to the UID of its object metadata, and the
    type switch yields metrics only for a resource kind. *)
Lemma derived_kind_resolves (obj : Obj) (w w1 : World) (md : Metrics) :
  deriveMetrics obj w = Returned (Some md) w1 ->
  implementsRuntimeObject obj = true /\
  exists m, objectMetaOf obj = Some m /\ resolveIdentity obj = Ok (metaUID m).
Proof.
  destruct w as [d cs0].
  destruct obj; run; intros Hrun; try discriminate;
    (split; [reflexivity|]); eexists; split; reflexivity.
Qed.

(** The type switch depends on the collector through the two report lists
    only. *)
Lemma deriveMetrics_config (obj : Obj) (w : World) :
  exists r es cs,
    forall w2,
      nodeConditionsToReport (dc w2) = nodeConditionsToReport (dc w) ->
      allocatableTypesToReport (dc w2) = allocatableTypesToReport (dc w) ->
      deriveMetrics obj w2 = Returned r (mkWorld (addLogs es (dc w2)) (calls w2 ++ cs)).
Proof.
  destruct w as [d cs0].
  destruct obj.
  2: { eexists _, _, [_]. intros [d2 cs2] Hnc Hat. run. rewrite Hnc, Hat. reflexivity. }
  1: { eexists _, _, [_]. intros [d2 cs2] Hnc Hat. reflexivity. }
  1-12: eexists _, [], [_]; intros [d2 cs2] Hnc Hat; run; rewrite addLogs_nil; reflexivity.
  all: exists None, [], []; intros [d2 cs2] Hnc Hat; run;
       rewrite addLogs_nil, app_nil_r; reflexivity.
Qed.

(** What [SyncMetrics] does once the type switch has yielded metrics with
    data points. *)
Lemma SyncMetrics_write (obj : Obj) (w w1 : World) (md : Metrics) :
  deriveMetrics obj w = Returned (Some md) w1 ->
  DataPointCount md <> 0 ->
  exists m,
    objectMetaOf obj = Some m /\
    SyncMetrics obj w
    = Returned () (mkWorld (withMetricsStore
                              (mkMetricsStore (<[metaUID m := md]>
                                                 (metricsCache (metricsStore (dc w1)))))
                              (dc w1))
                           (calls w1 ++ [FnStoreUpdate])).
Proof.
  intros Hderive Hpoints.
  destruct (derived_kind_resolves _ _ _ _ Hderive) as (Hrt & m & Hmeta & Hid).
  exists m. split; [done|].
  rewrite SyncMetrics_unfold, Hderive.
  apply Nat.eqb_neq in Hpoints. rewrite Hpoints.
  destruct (UpdateMetricsStore_runtime obj md w1 Hrt) as (ty & _ & ->).
  unfold metricsStore_update. rewrite Hid, Hpoints. simpl. by rewrite addLogs_nil.
Qed.

(** C4. [SyncMetrics] dispatches on the dynamic type alone.  For each of
    the fourteen recognized kinds the type switch calls the derivation
    function of that kind and no other, and the candidate consists of the
    records of that function's requests: the translated requests, joined in
    order.  The candidate then passes the guard on its data points and, when
    it has any, is what the store holds for the object's UID. *)
Theorem SyncMetrics_dispatches_on_kind (o : Resource) (d : DataCollector) :
  let nc := nodeConditionsToReport d in
  let at_ := allocatableTypesToReport d in
  let records ocs :=
    mjoin ((fun ocm => OCToMetrics (ocNode ocm) (ocResource ocm) (ocMetrics ocm)) <$> ocs) in
  let after es c :=
    mkWorld (mkDataCollector (logger d ++ es) (metricsStore d) (metadataStore d) nc at_) [c] in
  deriveMetrics (OPod o) (start d)
  = Returned (Some (records (getMetricsForPod o).1))
             (after (getMetricsForPod o).2 FnGetMetricsForPod) /\
  deriveMetrics (ONode o) (start d)
  = Returned (Some (records (getMetricsForNode o nc at_).1))
             (after (getMetricsForNode o nc at_).2 FnGetMetricsForNode) /\
  deriveMetrics (ONamespace o) (start d)
  = Returned (Some (records (getMetricsForNamespace o)))
             (after [] FnGetMetricsForNamespace) /\
  deriveMetrics (OReplicationController o) (start d)
  = Returned (Some (records (getMetricsForReplicationController o)))
             (after [] FnGetMetricsForReplicationController) /\
  deriveMetrics (OResourceQuota o) (start d)
  = Returned (Some (records (getMetricsForResourceQuota o)))
             (after [] FnGetMetricsForResourceQuota) /\
  deriveMetrics (ODeployment o) (start d)
  = Returned (Some (records (getMetricsForDeployment o)))
             (after [] FnGetMetricsForDeployment) /\
  deriveMetrics (OReplicaSet o) (start d)
  = Returned (Some (records (getMetricsForReplicaSet o)))
             (after [] FnGetMetricsForReplicaSet) /\
  deriveMetrics (ODaemonSet o) (start d)
  = Returned (Some (records (getMetricsForDaemonSet o)))
             (after [] FnGetMetricsForDaemonSet) /\
  deriveMetrics (OStatefulSet o) (start d)
  = Returned (Some (records (getMetricsForStatefulSet o)))
             (after [] FnGetMetricsForStatefulSet) /\
  deriveMetrics (OJob o) (start d)
  = Returned (Some (records (getMetricsForJob o)))
             (after [] FnGetMetricsForJob) /\
  deriveMetrics (OCronJob o) (start d)
  = Returned (Some (records (getMetricsForCronJob o)))
             (after [] FnGetMetricsForCronJob) /\
  deriveMetrics (OCronJobBeta o) (start d)
  = Returned (Some (records (getMetricsForCronJobBeta o)))
             (after [] FnGetMetricsForCronJobBeta) /\
  deriveMetrics (OHorizontalPodAutoscaler o) (start d)
  = Returned (Some (records (getMetricsForHPA o)))
             (after [] FnGetMetricsForHPA) /\
  deriveMetrics (OClusterResourceQuota o) (start d)
  = Returned (Some (records (getMetricsForClusterResourceQuota o)))
             (after [] FnGetMetricsForClusterResourceQuota) /\
  (forall obj w,
     SyncMetrics obj w =
     match deriveMetrics obj w with
     | Returned (Some md) w1 =>
         if Nat.eqb (DataPointCount md) 0 then Returned () w1
         else UpdateMetricsStore obj md w1
     | Returned None w1 => Returned () w1
     | Panicked r => Panicked r
     end) /\
  (forall obj w w1 md,
     deriveMetrics obj w = Returned (Some md) w1 ->
     DataPointCount md <> 0 ->
     exists m w',
       objectMetaOf obj = Some m /\
       SyncMetrics obj w = Returned () w' /\
       metricsCache (metricsStore (dc w'))
       = <[metaUID m := md]> (metricsCache (metricsStore (dc w)))).
Proof.
  intros nc at_ records after. subst after records nc at_.
  assert (Hjoin : forall ocs,
            ocsToMetrics ocs
            = mjoin ((fun ocm => OCToMetrics (ocNode ocm) (ocResource ocm) (ocMetrics ocm))
                       <$> ocs)).
  { intros ocs. unfold ocsToMetrics. by rewrite ocsToMetrics_from. }
  assert (Hnil : forall c, mkWorld (mkDataCollector (logger d ++ []) (metricsStore d)
                                      (metadataStore d) (nodeConditionsToReport d)
                                      (allocatableTypesToReport d)) [c]
                           = mkWorld d [c]).
  { intros c. rewrite app_nil_r. by destruct d. }
  repeat match goal with |- _ /\ _ => split end;
    rewrite ?Hnil, <- ?Hjoin; try reflexivity.
  - apply SyncMetrics_unfold.
  - intros obj w w1 md Hderive Hpoints.
    destruct (SyncMetrics_write _ _ _ _ Hderive Hpoints) as (m & Hmeta & Hrun).
    destruct (deriveMetrics_frame obj w) as (r & es & cs & Hframe & _).
    rewrite Hframe in Hderive. injection Hderive as _ <-.
    eexists m, _. split; [done|]. split; [exact Hrun|]. done.
Qed.

(** X4. When the derivation for an object yields metrics with at least
    one data point, [SyncMetrics] stores exactly those metrics under the UID
    of the object, replacing what was there; it makes one call to the
    store's update after the derivation and the facade logs nothing. *)
Theorem SyncMetrics_stores_under_uid (obj : Obj) (w w1 : World) (md : Metrics) :
  deriveMetrics obj w = Returned (Some md) w1 ->
  DataPointCount md <> 0 ->
  exists m w',
    objectMetaOf obj = Some m /\
    SyncMetrics obj w = Returned () w' /\
    metricsCache (metricsStore (dc w'))
    = <[metaUID m := md]> (metricsCache (metricsStore (dc w))) /\
    metricsCache (metricsStore (dc w')) !! metaUID m = Some md /\
    logger (dc w') = logger (dc w1) /\
    calls w' = calls w1 ++ [FnStoreUpdate].
Proof.
  intros Hderive Hpoints.
  destruct (SyncMetrics_write _ _ _ _ Hderive Hpoints) as (m & Hmeta & Hrun).
  destruct (deriveMetrics_frame obj w) as (r & es & cs & Hframe & _).
  rewrite Hframe in Hderive. injection Hderive as _ <-.
  eexists m, _. split; [done|]. split; [exact Hrun|]. simpl.
  repeat split; try done. apply lookup_insert_eq.
Qed.


Lemma recognized_resolves (obj : Obj) :
  unrecognizedKind obj = false ->
  exists m, objectMetaOf obj = Some m /\ resolveIdentity obj = Ok (metaUID m).
Proof. destruct obj; try discriminate; intros _; eexists; split; reflexivity. Qed.

(** The collector after [SyncMetrics]: more log entries and calls, and a
    cache that is either the same or has the object's entry replaced by
    metrics with data points. *)
Lemma SyncMetrics_shape (obj : Obj) (w w' : World) :
  SyncMetrics obj w = Returned () w' ->
  exists es cs ms,
    w' = mkWorld (addLogs es (withMetricsStore ms (dc w))) (calls w ++ cs) /\
    (ms = metricsStore (dc w) \/
     exists m md, objectMetaOf obj = Some m /\ DataPointCount md <> 0 /\
       ms = mkMetricsStore (<[metaUID m := md]> (metricsCache (metricsStore (dc w))))).
Proof.
  intros Hrun.
  destruct (deriveMetrics_frame obj w) as (r & es & cs & Hframe & _).
  assert (Hsame : Returned () (mkWorld (addLogs es (dc w)) (calls w ++ cs)) = Returned () w' ->
          exists es cs ms,
            w' = mkWorld (addLogs es (withMetricsStore ms (dc w))) (calls w ++ cs) /\
            (ms = metricsStore (dc w) \/
             exists m md, objectMetaOf obj = Some m /\ DataPointCount md <> 0 /\
               ms = mkMetricsStore (<[metaUID m := md]> (metricsCache (metricsStore (dc w)))))).
  { intros [= <-]. exists es, cs, (metricsStore (dc w)).
    rewrite withMetricsStore_same. by split; [|left]. }
  destruct r as [md|]; [|rewrite SyncMetrics_unfold, Hframe in Hrun; by apply Hsame].
  destruct (Nat.eqb (DataPointCount md) 0) eqn:Hpoints.
  { rewrite SyncMetrics_unfold, Hframe, Hpoints in Hrun. by apply Hsame. }
  apply Nat.eqb_neq in Hpoints.
  destruct (SyncMetrics_write _ _ _ _ Hframe Hpoints) as (m & Hmeta & Hwrite).
  rewrite Hwrite in Hrun. injection Hrun as <-. simpl.
  eexists es, (cs ++ [FnStoreUpdate]), _. split.
  - rewrite app_assoc. reflexivity.
  - right. by exists m, md.
Qed.

(** X6. Delivering the same object to [SyncMetrics] a second time leaves
    the metrics store as the first delivery left it. *)
Theorem SyncMetrics_idempotent (obj : Obj) (w w' : World) :
  SyncMetrics obj w = Returned () w' ->
  exists w'', SyncMetrics obj w' = Returned () w'' /\
              metricsStore (dc w'') = metricsStore (dc w').
Proof.
  intros Hrun.
  destruct (deriveMetrics_config obj w) as (r & es & cs & Hcfg).
  pose proof (Hcfg w eq_refl eq_refl) as Hframe.
  destruct r as [md|].
  2: { rewrite SyncMetrics_unfold, Hframe in Hrun. injection Hrun as <-.
       eexists.
       match goal with
       | |- context [SyncMetrics obj ?w1] =>
           rewrite SyncMetrics_unfold, (Hcfg w1 eq_refl eq_refl)
       end. done. }
  destruct (Nat.eqb (DataPointCount md) 0) eqn:Hpoints.
  { rewrite SyncMetrics_unfold, Hframe, Hpoints in Hrun. injection Hrun as <-.
    eexists.
    match goal with
    | |- context [SyncMetrics obj ?w1] =>
        rewrite SyncMetrics_unfold, (Hcfg w1 eq_refl eq_refl), Hpoints
    end. done. }
  apply Nat.eqb_neq in Hpoints.
  destruct (SyncMetrics_write _ _ _ _ Hframe Hpoints) as (m & Hmeta & Hwrite).
  rewrite Hwrite in Hrun. injection Hrun as <-.
  match goal with
  | |- context [SyncMetrics obj ?w1] =>
      destruct (SyncMetrics_write _ _ _ _ (Hcfg w1 eq_refl eq_refl) Hpoints)
        as (m' & Hmeta' & Hwrite')
  end.
  rewrite Hmeta in Hmeta'. injection Hmeta' as <-.
  eexists. split; [exact Hwrite'|]. simpl.
  by rewrite insert_insert_eq.
Qed.

(** X7. A removal that follows [SyncMetrics] for the same resource object
    leaves the cache without an entry for its UID and otherwise as it was
    before the two calls, and reports no error. *)
Theorem sync_then_remove (obj : Obj) (w w' : World) :
  unrecognizedKind obj = false ->
  SyncMetrics obj w = Returned () w' ->
  exists m w'',
    objectMetaOf obj = Some m /\
    RemoveFromMetricsStore obj w' = Returned () w'' /\
    metricsCache (metricsStore (dc w''))
    = delete (metaUID m) (metricsCache (metricsStore (dc w))) /\
    logger (dc w'') = logger (dc w') /\
    (metricsCache (metricsStore (dc w)) !! metaUID m = None ->
     metricsStore (dc w'') = metricsStore (dc w)).
Proof.
  intros Hkind Hrun.
  destruct (recognized_resolves obj Hkind) as (m & Hmeta & Hid).
  destruct (SyncMetrics_shape _ _ _ Hrun) as (es & cs & ms & -> & Hms).
  eexists m, _. split; [done|].
  split; [by apply RemoveFromMetricsStore_resolved|]. simpl.
  assert (Hdel : delete (metaUID m) (metricsCache ms)
                 = delete (metaUID m) (metricsCache (metricsStore (dc w)))).
  { destruct Hms as [->|(m' & md & Hmeta' & _ & ->)]; [done|].
    rewrite Hmeta in Hmeta'. injection Hmeta' as <-. simpl.
    apply delete_insert_eq. }
  rewrite Hdel. repeat split; try done.
  intros Habsent. rewrite delete_id by done. by destruct (metricsStore (dc w)).
Qed.

(** X8. After [SyncMetrics] has stored metrics for an object, a collection
    at time [t] returns every resource of those metrics stamped with [t],
    and leaves the collector as it was. *)
Theorem sync_then_collect (obj : Obj) (w w1 : World) (md : Metrics) (t : N) :
  deriveMetrics obj w = Returned (Some md) w1 ->
  DataPointCount md <> 0 ->
  exists w' snapshot w'',
    SyncMetrics obj w = Returned () w' /\
    CollectMetricData t w' = Returned snapshot w'' /\
    dc w'' = dc w' /\
    (forall rm, rm ∈ md -> applyCurrentTime t rm ∈ snapshot) /\
    DataPointCount snapshot <> 0.
Proof.
  intros Hderive Hpoints.
  destruct (SyncMetrics_write _ _ _ _ Hderive Hpoints) as (m & Hmeta & Hrun).
  eexists _, _, _. split; [exact Hrun|]. split; [reflexivity|]. simpl.
  split; [done|].
  assert (Hin : forall rm, rm ∈ md ->
            applyCurrentTime t rm ∈ metricsStore_getMetricData t
              (mkMetricsStore (<[metaUID m := md]> (metricsCache (metricsStore (dc w1)))))).
  { intros rm Hrm. apply elem_of_getMetricData. exists (metaUID m), md, rm.
    split; [apply lookup_insert_eq|done]. }
  split; [exact Hin|].
  destruct (sum_of_nonzero resourcePoints md Hpoints) as (rm & Hrm & Hpos).
  apply (sum_of_elem resourcePoints _ (applyCurrentTime t rm)); [by apply Hin|].
  by rewrite resourcePoints_applyCurrentTime.
Qed.

(** ** [SyncMetadata] and [SetupMetadataStore] *)

Lemma setupStore_lookup (gvk gvk' : GroupVersionKind) (store : Store) (key : string)
    (ms : MetadataStore) :
  metadataStore_lookup gvk' key (metadataStore_setupStore gvk store ms)
  = if decide (gvk = gvk') then store !! key else metadataStore_lookup gvk' key ms.
Proof.
  unfold metadataStore_lookup, metadataStore_setupStore. simpl.
  rewrite lookup_insert. destruct (decide (gvk = gvk')); [done|].
  destruct (stores ms) as [m|]; simpl; [done|]. by rewrite lookup_empty.
Qed.

(** X10. [SetupMetadataStore] changes the metadata store and nothing else
    of the collector.  Afterwards the cache of the kind is the one given,
    also on a collector fresh from [NewDataCollector] and also when the kind
    had a cache before, the caches of other kinds are as they were, and the
    Pod metadata function is handed the store with the new cache. *)
Theorem SetupMetadataStore_registers
    (gvk : GroupVersionKind) (store : Store) (d : DataCollector) (o : Resource) :
  let mds := metadataStore_setupStore gvk store (metadataStore d) in
  let w' := mkWorld (withMetadataStore mds d) [FnSetupStore] in
  SetupMetadataStore gvk store (start d) = Returned () w' /\
  metricsStore (dc w') = metricsStore d /\
  logger (dc w') = logger d /\
  (forall key, metadataStore_lookup gvk key mds = store !! key) /\
  (forall gvk' key, gvk' <> gvk ->
     metadataStore_lookup gvk' key mds = metadataStore_lookup gvk' key (metadataStore d)) /\
  (exists w'', SyncMetadata (OPod o) w' = Returned (getMetadataForPod o mds).1 w'').
Proof.
  intros mds w'. subst mds w'.
  split; [reflexivity|]. split; [reflexivity|]. split; [reflexivity|].
  split; [|split].
  - intros key. rewrite setupStore_lookup. by rewrite decide_True.
  - intros gvk' key Hne. rewrite setupStore_lookup. by rewrite decide_False.
  - run. eexists. reflexivity.
Qed.

(** ** Sequences of calls *)

Lemma SyncMetadata_frame (obj : Obj) (w : World) :
  exists km es cs,
    SyncMetadata obj w = Returned km (mkWorld (addLogs es (dc w)) (calls w ++ cs)).
Proof.
  destruct w as [d cs0].
  destruct obj; run.
  1: eexists _, _, [_]; reflexivity.
  1,3,5-12: eexists _, [], [_]; rewrite addLogs_nil; reflexivity.
  all: eexists _, [], []; rewrite addLogs_nil, app_nil_r; reflexivity.
Qed.

(** The effect of one call that returns. *)
Lemma perform_effect (c : MethodCall) (w w' : World) :
  perform c w = Returned () w' ->
  nodeConditionsToReport (dc w') = nodeConditionsToReport (dc w) /\
  allocatableTypesToReport (dc w') = allocatableTypesToReport (dc w) /\
  (exists es, logger (dc w') = logger (dc w) ++ es) /\
  (exists cs, calls w' = calls w ++ cs) /\
  (metricsStore (dc w') = metricsStore (dc w) \/
   writesMetrics c = true /\
   ((exists uid md, DataPointCount md <> 0 /\
       metricsStore (dc w')
       = mkMetricsStore (<[uid := md]> (metricsCache (metricsStore (dc w))))) \/
    (isRemoval c = true /\
     exists uid,
       metricsStore (dc w')
       = mkMetricsStore (delete uid (metricsCache (metricsStore (dc w))))))) /\
  (metadataStore (dc w') = metadataStore (dc w) \/ isSetup c = true).
Proof.
  destruct c as [gvk store|obj|obj md|t|obj|obj]; simpl; intros Hrun.
  - injection Hrun as <-. simpl.
    repeat split; try done; [by exists [] ; rewrite app_nil_r|by eexists|by left|by right].
  - destruct (implementsRuntimeObject obj) eqn:Hrt.
    2: { unfold RemoveFromMetricsStore, assertRuntimeObject in Hrun.
         rewrite Hrt in Hrun. discriminate. }
    destruct (RemoveFromMetricsStore_runtime obj w Hrt) as (ty & _ & Heq).
    rewrite Heq in Hrun. injection Hrun as <-. simpl.
    repeat split; try done; [by eexists|by eexists| |by left].
    unfold metricsStore_remove. destruct (resolveIdentity obj) as [uid|e]; simpl.
    + right. split; [done|]. right. split; [done|]. by exists uid.
    + by left.
  - destruct (implementsRuntimeObject obj) eqn:Hrt.
    2: { unfold UpdateMetricsStore, assertRuntimeObject in Hrun.
         rewrite Hrt in Hrun. discriminate. }
    destruct (UpdateMetricsStore_runtime obj md w Hrt) as (ty & _ & Heq).
    rewrite Heq in Hrun. injection Hrun as <-. simpl.
    repeat split; try done; [by eexists|by eexists| |by left].
    unfold metricsStore_update. destruct (resolveIdentity obj) as [uid|e]; simpl.
    + destruct (Nat.eqb (DataPointCount md) 0) eqn:Hpoints; simpl; [by left|].
      apply Nat.eqb_neq in Hpoints.
      right. split; [done|]. left. by exists uid, md.
    + by left.
  - injection Hrun as <-. simpl.
    repeat split; try done; [by exists []; rewrite app_nil_r|by eexists|by left|by left].
  - destruct (SyncMetrics_shape _ _ _ Hrun) as (es & cs & ms & -> & Hms). simpl.
    repeat split; try done; [by eexists|by eexists| |by left].
    destruct Hms as [->|(m & md & _ & Hpoints & ->)]; [by left|].
    right. split; [done|]. left. by exists (metaUID m), md.
  - destruct (SyncMetadata_frame obj w) as (km & es & cs & Heq).
    unfold mbind, M_bind in Hrun. rewrite Heq in Hrun. injection Hrun as <-. simpl.
    repeat split; try done; [by eexists|by eexists|by left|by left].
Qed.

Lemma performAll_cons (c : MethodCall) (cs : list MethodCall) (w : World) :
  performAll (c :: cs) w =
  match perform c w with
  | Returned _ w1 => performAll cs w1
  | Panicked r => Panicked r
  end.
Proof. reflexivity. Qed.

(** Induction over a sequence of calls that returns. *)
Lemma performAll_ind (P : World -> World -> Prop) :
  (forall w, P w w) ->
  (forall c w w1 w', perform c w = Returned () w1 -> P w1 w' -> P w w') ->
  forall cs w w', performAll cs w = Returned () w' -> P w w'.
Proof.
  intros Hrefl Hstep cs. induction cs as [|c cs IH]; intros w w' Hrun.
  - injection Hrun as <-. apply Hrefl.
  - rewrite performAll_cons in Hrun.
    destruct (perform c w) as [[] w1|r] eqn:Hc; [|discriminate].
    eapply Hstep; [exact Hc|]. by apply IH.
Qed.

(** X11. Whatever calls are made, the two report lists given to
    [NewDataCollector] stay as they are, and the log and the trace of calls
    only grow at the end. *)
Theorem calls_preserve_configuration (cs : list MethodCall) (w w' : World) :
  performAll cs w = Returned () w' ->
  nodeConditionsToReport (dc w') = nodeConditionsToReport (dc w) /\
  allocatableTypesToReport (dc w') = allocatableTypesToReport (dc w) /\
  logger (dc w) `prefix_of` logger (dc w') /\
  calls w `prefix_of` calls w'.
Proof.
  revert cs w w'. apply performAll_ind.
  - intros w. by repeat split.
  - intros c w w1 w' Hc (Hnc & Hat & Hlog & Hcalls).
    destruct (perform_effect _ _ _ Hc) as (Hnc1 & Hat1 & [es Hes] & [cs1 Hcs1] & _).
    rewrite Hnc, Hat. repeat split; try done.
    + etrans; [|exact Hlog]. rewrite Hes. by apply prefix_app_r.
    + etrans; [|exact Hcalls]. rewrite Hcs1. by apply prefix_app_r.
Qed.

(** X12. A sequence of calls returns exactly when each removal and update
    in it is handed a [runtime.Object]; the other four methods never
    panic. *)
Theorem calls_return_iff_assertions_hold (cs : list MethodCall) (w : World) :
  (exists w', performAll cs w = Returned () w') <->
  Forall (fun c => assertionHolds c = true) cs.
Proof.
  revert w. induction cs as [|c cs IH]; intros w.
  - split; [constructor|]. intros _. by eexists.
  - rewrite performAll_cons, Forall_cons.
    assert (Hc : (exists w1, perform c w = Returned () w1) <-> assertionHolds c = true).
    { destruct c as [gvk store|obj|obj md|t|obj|obj]; simpl.
      - split; [done|]. intros _. by eexists.
      - apply (entry_points_panic_free obj []).
      - apply entry_points_panic_free.
      - split; [done|]. intros _. by eexists.
      - split; [done|]. intros _. apply SyncMetrics_returns.
      - split; [done|]. intros _.
        destruct (SyncMetadata_frame obj w) as (km & es & cs1 & Heq).
        unfold mbind, M_bind. rewrite Heq. by eexists. }
    split.
    + intros [w' Hrun]. destruct (perform c w) as [[] w1|r] eqn:Hrunc; [|discriminate].
      split; [apply Hc; by eexists|]. apply (IH w1). by eexists.
    + intros [Hhold Hrest]. apply Hc in Hhold as [w1 ->]. by apply IH.
Qed.

Lemma entriesNonEmpty_step (c : MethodCall) (w w' : World) :
  perform c w = Returned () w' ->
  entriesNonEmpty (metricsStore (dc w)) ->
  entriesNonEmpty (metricsStore (dc w')).
Proof.
  intros Hc Hinv.
  destruct (perform_effect _ _ _ Hc) as (_ & _ & _ & _ & Hms & _).
  destruct Hms as [->|[_ [(uid & md & Hpoints & ->)|(_ & uid & ->)]]]; [done| |].
  - intros uid' md' Hlook. simpl in Hlook.
    rewrite lookup_insert in Hlook. destruct (decide (uid = uid')).
    + by injection Hlook as <-.
    + by apply (Hinv uid').
  - intros uid' md' Hlook. simpl in Hlook.
    apply lookup_delete_Some in Hlook as [_ Hlook]. by apply (Hinv uid').
Qed.

Lemma entriesNonEmpty_performAll (cs : list MethodCall) (w w' : World) :
  performAll cs w = Returned () w' ->
  entriesNonEmpty (metricsStore (dc w)) ->
  entriesNonEmpty (metricsStore (dc w')).
Proof.
  revert cs w w'.
  apply (performAll_ind (fun w w' => entriesNonEmpty (metricsStore (dc w)) ->
                                     entriesNonEmpty (metricsStore (dc w')))); [done|].
  intros c w w1 w' Hc IH Hinv. apply IH. by apply (entriesNonEmpty_step c w).
Qed.

(** X13. In every state that calls can reach from a collector fresh from
    [NewDataCollector], each entry of the metrics cache holds at least one
    data point: an entry is never stored empty. *)
Theorem cache_entries_have_points
    (nc at_ : list string) (cs : list MethodCall) (w' : World) :
  performAll cs (start (NewDataCollector nc at_)) = Returned () w' ->
  entriesNonEmpty (metricsStore (dc w')).
Proof.
  intros Hrun. apply (entriesNonEmpty_performAll _ _ _ Hrun).
  intros uid md Hlook. simpl in Hlook. by rewrite lookup_empty in Hlook.
Qed.

(** X14. The metrics store changes only through a removal, an update or
    [SyncMetrics], and the metadata store only through
    [SetupMetadataStore]: a sequence of other calls leaves the store, and
    with it every snapshot, as it was. *)
Theorem stores_change_only_through_their_writers (cs : list MethodCall) (w w' : World) :
  performAll cs w = Returned () w' ->
  (Forall (fun c => writesMetrics c = false) cs ->
   metricsStore (dc w') = metricsStore (dc w) /\
   forall t, metricsStore_getMetricData t (metricsStore (dc w'))
             = metricsStore_getMetricData t (metricsStore (dc w))) /\
  (Forall (fun c => isSetup c = false) cs ->
   metadataStore (dc w') = metadataStore (dc w)).
Proof.
  revert w. induction cs as [|c cs IH]; intros w Hrun.
  - injection Hrun as <-. by repeat split.
  - rewrite performAll_cons in Hrun.
    destruct (perform c w) as [[] w1|r] eqn:Hc; [|discriminate].
    destruct (IH w1 Hrun) as [IHms IHmds].
    destruct (perform_effect _ _ _ Hc) as (_ & _ & _ & _ & Hms & Hmds).
    split.
    + intros Hall. apply Forall_cons in Hall as [Hc0 Hall].
      destruct (IHms Hall) as [Heq _].
      assert (Hstore : metricsStore (dc w') = metricsStore (dc w)).
      { rewrite Heq. destruct Hms as [->|[Hw _]]; [done|congruence]. }
      split; [done|]. intros t. by rewrite Hstore.
    + intros Hall. apply Forall_cons in Hall as [Hc0 Hall].
      rewrite (IHmds Hall). destruct Hmds as [->|Hs]; [done|congruence].
Qed.

(** X15. The later of two deliveries for the same UID wins: when
    [SyncMetrics] has handled one object and then handles another with the
    same UID whose derivation has data points, the entry of that UID is
    the second derivation alone, and the rest of the cache is as before
    the first delivery. *)
Theorem SyncMetrics_last_delivery_wins
    (o1 o2 : Obj) (m1 m2 : ObjectMeta) (w w1 w2 : World) (md2 : Metrics) :
  SyncMetrics o1 w = Returned () w1 ->
  deriveMetrics o2 w1 = Returned (Some md2) w2 ->
  DataPointCount md2 <> 0 ->
  objectMetaOf o1 = Some m1 ->
  objectMetaOf o2 = Some m2 ->
  metaUID m1 = metaUID m2 ->
  exists w',
    SyncMetrics o2 w1 = Returned () w' /\
    metricsCache (metricsStore (dc w'))
    = <[metaUID m2 := md2]> (metricsCache (metricsStore (dc w))).
Proof.
  intros Hfirst Hderive Hpoints Hm1 Hm2 Huid.
  destruct (SyncMetrics_shape _ _ _ Hfirst) as (es & cs & ms & -> & Hms).
  destruct (SyncMetrics_write _ _ _ _ Hderive Hpoints) as (m & Hmeta & Hrun).
  rewrite Hm2 in Hmeta. injection Hmeta as <-.
  destruct (deriveMetrics_frame o2 (mkWorld (addLogs es (withMetricsStore ms (dc w)))
                                            (calls w ++ cs)))
    as (r & es2 & cs2 & Hframe & _).
  rewrite Hframe in Hderive. injection Hderive as _ <-.
  eexists. split; [exact Hrun|]. simpl.
  destruct Hms as [->|(m & md1 & Hmeta1 & _ & ->)]; [done|].
  rewrite Hm1 in Hmeta1. injection Hmeta1 as <-. simpl.
  rewrite Huid. apply insert_insert_eq.
Qed.

(** X16. An entry leaves the cache only through a removal: after any
    sequence of calls without [RemoveFromMetricsStore], every UID that had
    an entry still has one. *)
Theorem entries_persist_without_removal (cs : list MethodCall) (w w' : World) (uid : UID) :
  performAll cs w = Returned () w' ->
  Forall (fun c => isRemoval c = false) cs ->
  is_Some (metricsCache (metricsStore (dc w)) !! uid) ->
  is_Some (metricsCache (metricsStore (dc w')) !! uid).
Proof.
  revert w. induction cs as [|c cs IH]; intros w Hrun Hall Hhas.
  - by injection Hrun as <-.
  - rewrite performAll_cons in Hrun.
    destruct (perform c w) as [[] w1|r] eqn:Hc; [|discriminate].
    apply Forall_cons in Hall as [Hc0 Hall].
    apply (IH w1 Hrun Hall).
    destruct (perform_effect _ _ _ Hc) as (_ & _ & _ & _ & Hms & _).
    destruct Hms as [->|[_ [(uid' & md & _ & ->)|(Hrm & _)]]]; [done| |congruence].
    simpl. rewrite lookup_insert. by destruct (decide (uid' = uid)).
Qed.

End Properties.

(** ** The theorems at concrete inputs *)

#[local] Existing Instance Sample.collaborators.

Lemma SyncMetrics_skips_empty_derivation_witness :
  let w1 := mkWorld Sample.tracking [FnGetMetricsForDeployment] in
  deriveMetrics (ODeployment Sample.webIdle) (start Sample.tracking)
    = Returned (Some [mkResourceMetrics [("k8s.uid", "uid-web")]
                        [mkScopeMetrics [mkMetric "k8s.deployment.available" []]]]) w1 /\
  SyncMetrics (ODeployment Sample.webIdle) (start Sample.tracking) = Returned () w1 /\
  metricsCache (metricsStore (dc w1)) !! "uid-web" = Some Sample.webMetrics.
Proof.
  intros w1.
  assert (Hderive : deriveMetrics (ODeployment Sample.webIdle) (start Sample.tracking)
    = Returned (Some [mkResourceMetrics [("k8s.uid", "uid-web")]
                        [mkScopeMetrics [mkMetric "k8s.deployment.available" []]]]) w1)
    by reflexivity.
  split; [exact Hderive|].
  destruct (SyncMetrics_skips_empty_derivation _ _ _ _ Hderive eq_refl)
    as (Hsync & _ & _ & _ & _).
  split; [exact Hsync | reflexivity].
Defined.

Lemma SyncMetrics_ignores_unrecognized_kind_witness :
  SyncMetrics ONil (start Sample.tracking)
  = Returned () (start Sample.tracking).
Proof.
  exact (SyncMetrics_ignores_unrecognized_kind
           ONil (start Sample.tracking) eq_refl).
Defined.

Lemma write_path_absorbs_store_errors_witness :
  let status := ORuntime "*v1.Status" None in
  let entry := mkLogEntry "error" "failed to update metric cache"
                          [zapString "obj" "*v1.Status"; zapError IdentityResolutionError] in
  implementsRuntimeObject status = true /\
  (metricsStore_update status Sample.webMetrics (metricsStore Sample.tracking)).1
    = Some IdentityResolutionError /\
  UpdateMetricsStore status Sample.webMetrics (start Sample.tracking)
  = Returned () (mkWorld (mkDataCollector [entry]
                            (mkMetricsStore {[ "uid-web" := Sample.webMetrics ]})
                            (mkMetadataStore None) [] [])
                         [FnStoreUpdate]) /\
  exists w',
    UpdateMetricsStore status Sample.webMetrics (start Sample.tracking) = Returned () w' /\
    logger (dc w') = [entry] /\
    metricsCache (metricsStore (dc w')) !! "uid-web" = Some Sample.webMetrics.
Proof.
  intros status entry. split; [reflexivity|]. split; [reflexivity|].
  split; [reflexivity|].
  destruct (write_path_absorbs_store_errors status Sample.webMetrics Sample.tracking
              IdentityResolutionError eq_refl) as (Hupd & _ & _).
  destruct (Hupd eq_refl) as (ty & w' & Hty & Hrun & Hlog & Hms & _).
  injection Hty as <-.
  exists w'. split; [exact Hrun|]. split; [exact Hlog|].
  rewrite Hms. reflexivity.
Defined.

(** The dispatch at a beta CronJob and at a Deployment, computed: the
    candidate holds the record of the request, and the store ends up with
    it. *)
Lemma SyncMetrics_dispatches_on_kind_witness :
  deriveMetrics (OCronJobBeta Sample.web) (start Sample.tracking)
  = Returned (Some [mkResourceMetrics [("k8s.uid", "uid-web")]
                      [mkScopeMetrics [mkMetric "k8s.cronjob.active_jobs" [mkDataPoint 0 1]]]])
             (mkWorld Sample.tracking [FnGetMetricsForCronJobBeta]) /\
  exists w',
    SyncMetrics (ODeployment Sample.web) (start (NewDataCollector [] [])) = Returned () w' /\
    metricsCache (metricsStore (dc w')) = {[ "uid-web" := Sample.webMetrics ]}.
Proof.
  destruct (SyncMetrics_dispatches_on_kind Sample.web Sample.tracking)
    as (_ & _ & _ & _ & _ & _ & _ & _ & _ & _ & _ & Hbeta & _ & _ & _ & Hstore).
  split; [rewrite Hbeta; reflexivity|].
  assert (Hderive : deriveMetrics (ODeployment Sample.web) (start (NewDataCollector [] []))
                    = Returned (Some Sample.webMetrics)
                               (mkWorld (NewDataCollector [] []) [FnGetMetricsForDeployment]))
    by reflexivity.
  assert (Hpoints : DataPointCount Sample.webMetrics <> 0) by (vm_compute; lia).
  destruct (Hstore _ _ _ _ Hderive Hpoints) as (m & w' & Hmeta & Hrun & Hcache).
  injection Hmeta as <-.
  exists w'. split; [exact Hrun|]. rewrite Hcache. reflexivity.
Defined.

Lemma SyncMetadata_recognized_kinds_witness :
  ~ recognizes SyncMetadata (ONamespace Sample.web) /\
  SyncMetadata (ONamespace Sample.web) (start Sample.tracking)
  = Returned (Some ∅) (start Sample.tracking).
Proof.
  assert (Hnot : ~ recognizes SyncMetadata (ONamespace Sample.web)).
  { intros Hrec. exact (Hrec Sample.tracking eq_refl). }
  split; [exact Hnot|].
  exact (proj2 (SyncMetadata_recognized_kinds (ONamespace Sample.web)) Hnot
               (start Sample.tracking)).
Defined.

(** C5 as stated fails at a Namespace: [SyncMetrics] recognizes it, it is
    neither a ResourceQuota nor a ClusterResourceQuota, and [SyncMetadata]
    has no case for it. *)
Lemma SyncMetadata_has_no_namespace_case :
  ~ (recognizes SyncMetadata (ONamespace Sample.web) <->
     recognizes SyncMetrics (ONamespace Sample.web) /\
     isResourceQuota (ONamespace Sample.web) = false /\
     isClusterResourceQuota (ONamespace Sample.web) = false).
Proof.
  intros [_ Hback].
  assert (Hrec : recognizes SyncMetadata (ONamespace Sample.web)).
  { apply Hback. split; [|done]. intros d Hnil. discriminate Hnil. }
  exact (Hrec Sample.tracking eq_refl).
Qed.

(** C6 at two values that are not a [runtime.Object]: the nil interface
    and a tombstone of the watch cache.  The assertion panics before the
    store is reached and before anything is logged. *)
Lemma entry_points_panic_on_non_runtime_object :
  RemoveFromMetricsStore ONil (start Sample.tracking)
  = Panicked "interface conversion: interface {} is not runtime.Object" /\
  RemoveFromMetricsStore (OForeign "cache.DeletedFinalStateUnknown") (start Sample.tracking)
  = Panicked "interface conversion: interface {} is not runtime.Object" /\
  UpdateMetricsStore ONil Sample.webMetrics (start Sample.tracking)
  = Panicked "interface conversion: interface {} is not runtime.Object" /\
  UpdateMetricsStore (OForeign "string") Sample.webMetrics (start Sample.tracking)
  = Panicked "interface conversion: interface {} is not runtime.Object".
Proof. repeat split. Qed.

Lemma SyncMetadata_leaves_stores_witness :
  exists km w',
    SyncMetadata (OPod Sample.web) (start Sample.tracking) = Returned km w' /\
    metricsStore (dc w') = metricsStore Sample.tracking.
Proof.
  destruct (SyncMetadata_leaves_stores (OPod Sample.web) (start Sample.tracking))
    as (km & w' & Hrun & Hms & _).
  exists km, w'. split; [exact Hrun | exact Hms].
Defined.

Lemma CollectMetricData_is_snapshot_witness :
  CollectMetricData 1700000000 (start Sample.tracking)
  = Returned [mkResourceMetrics [("k8s.uid", "uid-web")]
                [mkScopeMetrics [mkMetric "k8s.deployment.available"
                                   [mkDataPoint 1700000000 1]]]]
             (mkWorld Sample.tracking [FnStoreGetMetricData]).
Proof.
  destruct (CollectMetricData_is_snapshot 1700000000 Sample.tracking) as (Hrun & _).
  rewrite Hrun. vm_compute. reflexivity.
Defined.

Lemma RemoveFromMetricsStore_removes_witness :
  resolveIdentity (ODeployment Sample.web) = Ok "uid-web" /\
  exists w',
    RemoveFromMetricsStore (ODeployment Sample.web) (start Sample.tracking) = Returned () w' /\
    metricsCache (metricsStore (dc w')) !! "uid-web" = None.
Proof.
  split; [reflexivity|].
  destruct (RemoveFromMetricsStore_removes (ODeployment Sample.web) "uid-web"
              Sample.tracking eq_refl) as (w' & Hrun & _ & _ & Hgone & _).
  exists w'. split; [exact Hrun | exact Hgone].
Defined.

Lemma SyncMetrics_stores_under_uid_witness :
  let md := Sample.webMetrics in
  let w1 := mkWorld (NewDataCollector [] []) [FnGetMetricsForDeployment] in
  deriveMetrics (ODeployment Sample.web) (start (NewDataCollector [] [])) = Returned (Some md) w1 /\
  DataPointCount md <> 0 /\
  exists w',
    SyncMetrics (ODeployment Sample.web) (start (NewDataCollector [] [])) = Returned () w' /\
    metricsCache (metricsStore (dc w')) !! "uid-web" = Some md.
Proof.
  intros md w1.
  assert (Hderive : deriveMetrics (ODeployment Sample.web) (start (NewDataCollector [] []))
                    = Returned (Some md) w1) by reflexivity.
  assert (Hpoints : DataPointCount md <> 0) by (vm_compute; lia).
  split; [exact Hderive|]. split; [exact Hpoints|].
  destruct (SyncMetrics_stores_under_uid _ _ _ _ Hderive Hpoints)
    as (m & w' & Hmeta & Hrun & _ & Hlook & _).
  injection Hmeta as <-. exists w'. split; [exact Hrun | exact Hlook].
Defined.

Lemma web_sync :
  SyncMetrics (ODeployment Sample.web) (start (NewDataCollector [] [])) = Returned () Sample.afterWebSync.
Proof. vm_compute. reflexivity. Defined.


Lemma SyncMetrics_idempotent_witness :
  exists w'', SyncMetrics (ODeployment Sample.web) Sample.afterWebSync = Returned () w'' /\
              metricsStore (dc w'') = metricsStore (dc Sample.afterWebSync).
Proof. exact (SyncMetrics_idempotent _ _ _ web_sync). Defined.

Lemma sync_then_remove_witness :
  exists w'',
    RemoveFromMetricsStore (ODeployment Sample.web) Sample.afterWebSync = Returned () w'' /\
    metricsStore (dc w'') = metricsStore (NewDataCollector [] []).
Proof.
  destruct (sync_then_remove (ODeployment Sample.web) _ _ eq_refl web_sync)
    as (m & w'' & Hmeta & Hrun & _ & _ & Hback).
  injection Hmeta as <-.
  exists w''. split; [exact Hrun|]. apply Hback. reflexivity.
Defined.

Lemma web_derive :
  deriveMetrics (ODeployment Sample.web) (start (NewDataCollector [] []))
  = Returned (Some Sample.webMetrics)
             (mkWorld (NewDataCollector [] []) [FnGetMetricsForDeployment]).
Proof. reflexivity. Defined.

Lemma sync_then_collect_witness :
  exists w' snapshot w'',
    SyncMetrics (ODeployment Sample.web) (start (NewDataCollector [] [])) = Returned () w' /\
    CollectMetricData 42 w' = Returned snapshot w'' /\
    DataPointCount snapshot <> 0.
Proof.
  assert (Hpoints : DataPointCount Sample.webMetrics <> 0) by (vm_compute; lia).
  destruct (sync_then_collect _ _ _ _ 42 web_derive Hpoints)
    as (w' & snapshot & w'' & Hsync & Hcollect & _ & _ & Hcount).
  exists w', snapshot, w''. split; [exact Hsync|]. split; [exact Hcollect | exact Hcount].
Defined.

Lemma sampleCalls_return :
  exists w', performAll sampleCalls (start (NewDataCollector ["Ready"] ["cpu"])) = Returned () w'.
Proof. eexists. vm_compute. reflexivity. Defined.

Lemma calls_preserve_configuration_witness :
  exists w',
    performAll sampleCalls (start (NewDataCollector ["Ready"] ["cpu"])) = Returned () w' /\
    nodeConditionsToReport (dc w') = ["Ready"] /\
    allocatableTypesToReport (dc w') = ["cpu"].
Proof.
  destruct sampleCalls_return as [w' Hrun]. exists w'. split; [exact Hrun|].
  destruct (calls_preserve_configuration _ _ _ Hrun) as (Hnc & Hat & _).
  split; [exact Hnc | exact Hat].
Defined.

Lemma cache_entries_have_points_witness :
  exists w',
    performAll sampleCalls (start (NewDataCollector ["Ready"] ["cpu"])) = Returned () w' /\
    entriesNonEmpty (metricsStore (dc w')).
Proof.
  destruct sampleCalls_return as [w' Hrun]. exists w'. split; [exact Hrun|].
  exact (cache_entries_have_points _ _ _ _ Hrun).
Defined.

Lemma readOnlyCalls_return :
  exists w', performAll readOnlyCalls (start Sample.tracking) = Returned () w'.
Proof. eexists. vm_compute. reflexivity. Defined.

Lemma stores_change_only_through_their_writers_witness :
  exists w',
    performAll readOnlyCalls (start Sample.tracking) = Returned () w' /\
    metricsStore (dc w') = metricsStore Sample.tracking /\
    metadataStore (dc w') = metadataStore Sample.tracking.
Proof.
  destruct readOnlyCalls_return as [w' Hrun]. exists w'. split; [exact Hrun|].
  destruct (stores_change_only_through_their_writers _ _ _ Hrun) as [Hms Hmds].
  split.
  - apply Hms. repeat constructor.
  - apply Hmds. repeat constructor.
Defined.

Lemma SetupMetadataStore_registers_witness :
  let nodes : Store := {[ "node-1" := Sample.web ]} in
  exists w',
    SetupMetadataStore ("", "v1", "Node") nodes (start (NewDataCollector [] [])) = Returned () w' /\
    metadataStore_lookup ("", "v1", "Node") "node-1" (metadataStore (dc w')) = Some Sample.web.
Proof.
  intros nodes.
  destruct (SetupMetadataStore_registers ("", "v1", "Node") nodes (NewDataCollector [] [])
              Sample.web) as (Hrun & _ & _ & Hlook & _).
  eexists. split; [exact Hrun|]. simpl. rewrite Hlook. reflexivity.
Defined.

Lemma SyncMetrics_last_delivery_wins_witness :
  let scaled := mkResource (mkObjectMeta "uid-web" "default" "web")
                           [("replicas", "5"); ("ready", "4")] in
  exists w',
    SyncMetrics (ODeployment scaled) Sample.afterWebSync = Returned () w' /\
    metricsCache (metricsStore (dc w')) !! "uid-web"
    = Some [mkResourceMetrics [("k8s.uid", "uid-web")]
              [mkScopeMetrics [mkMetric "k8s.deployment.available"
                                 [mkDataPoint 0 1; mkDataPoint 0 1]]]].
Proof.
  intros scaled.
  assert (Hderive : deriveMetrics (ODeployment scaled) Sample.afterWebSync
    = Returned (Some [mkResourceMetrics [("k8s.uid", "uid-web")]
                        [mkScopeMetrics [mkMetric "k8s.deployment.available"
                                           [mkDataPoint 0 1; mkDataPoint 0 1]]]])
               (mkWorld (dc Sample.afterWebSync)
                        [FnGetMetricsForDeployment; FnStoreUpdate; FnGetMetricsForDeployment]))
    by reflexivity.
  assert (Hpoints : DataPointCount [mkResourceMetrics [("k8s.uid", "uid-web")]
                        [mkScopeMetrics [mkMetric "k8s.deployment.available"
                                           [mkDataPoint 0 1; mkDataPoint 0 1]]]] <> 0)
    by (vm_compute; lia).
  destruct (SyncMetrics_last_delivery_wins (ODeployment Sample.web) (ODeployment scaled)
              (objectMeta Sample.web) (objectMeta scaled) _ _ _ _
              web_sync Hderive Hpoints eq_refl eq_refl eq_refl) as (w' & Hrun & Hcache).
  exists w'. split; [exact Hrun|]. rewrite Hcache. simpl. apply lookup_insert_eq.
Defined.

Lemma writingCalls_return :
  exists w', performAll writingCalls (start Sample.tracking) = Returned () w'.
Proof. eexists. vm_compute. reflexivity. Defined.

Lemma entries_persist_without_removal_witness :
  Forall (fun c => isRemoval c = false) writingCalls /\
  exists w',
    performAll writingCalls (start Sample.tracking) = Returned () w' /\
    metricsStore (dc w') <> metricsStore Sample.tracking /\
    is_Some (metricsCache (metricsStore (dc w')) !! "uid-web").
Proof.
  assert (Hall : Forall (fun c => isRemoval c = false) writingCalls)
    by (repeat constructor).
  split; [exact Hall|].
  destruct writingCalls_return as [w' Hrun]. exists w'. split; [exact Hrun|].
  split.
  - revert Hrun. vm_compute. intros Hrun Heq.
    injection Hrun as <-. discriminate Heq.
  - apply (entries_persist_without_removal _ _ _ "uid-web" Hrun Hall).
    eexists. reflexivity.
Defined.
